(** * trl/dataset_processor.py: tokenize / filter / length statistics

    A shallow embedding of [src/trl/dataset_processor.py].  Records of a
    dataset are Python dicts keyed by field name ([gmap string Value]);
    Python exceptions are the [Raise] branch of [result]; the [logging]
    module is an explicit list of emitted records threaded through the
    two functions that log. *)

From Stdlib Require Import ZArith QArith Qcanon.
From stdpp Require Import gmap strings list fin_maps.

Local Open Scope string_scope.
Local Open Scope Z_scope.

(** ** Exceptions and the error monad *)

Inductive Exception : Type :=
| KeyError (key : string)
| TypeError
| ValueError
| ZeroDivisionError
| AttributeError
| NotImplementedError.

Inductive result (A : Type) : Type :=
| Ok (a : A)
| Raise (e : Exception).
Arguments Ok {A} a.
Arguments Raise {A} e.

Definition is_Ok {A} (r : result A) : Prop := ∃ a, r = Ok a.

Global Instance result_ret : MRet result := λ A a, Ok a.
Global Instance result_bind : MBind result := λ A B f m,
  match m with
  | Ok a => f a
  | Raise e => Raise e
  end.
Global Instance result_fmap : FMap result := λ A B f m,
  match m with
  | Ok a => Ok (f a)
  | Raise e => Raise e
  end.

(** [[f(x) for x in l]] where [f] may raise: left to right, first
    exception wins. *)
Fixpoint mapR {A B} (f : A → result B) (l : list A) : result (list B) :=
  match l with
  | [] => Ok []
  | x :: xs => y ← f x; ys ← mapR f xs; Ok (y :: ys)
  end.

(** Keep the elements on which [f] answers [True]. *)
Fixpoint filterR {A} (f : A → result bool) (l : list A) : result (list A) :=
  match l with
  | [] => Ok []
  | x :: xs => b ← f x; ys ← filterR f xs; Ok (if b : bool then x :: ys else ys)
  end.

(** [for x in l: acc = f(acc, x)] where [f] may raise. *)
Fixpoint foldR {A B} (f : B → A → result B) (acc : B) (l : list A) : result B :=
  match l with
  | [] => Ok acc
  | x :: xs => acc' ← f acc x; foldR f acc' xs
  end.

(** ** Data model *)

(** One conversational turn, [{"role": ..., "content": ...}]. *)
Record Turn : Type := { role : string; content : string }.

(** A field holds a list of turns before tokenization and a list of
    token ids after it. *)
Inductive Value : Type :=
| Turns (ts : list Turn)
| Tokens (ids : list Z).

Abbreviation Row := (gmap string Value).

(** [len(v)] *)
Definition py_len (v : Value) : Z :=
  match v with
  | Turns ts => Z.of_nat (length ts)
  | Tokens ids => Z.of_nat (length ids)
  end.

(** [v[:-1]]: every element but the last; the empty list stays empty. *)
Definition slice_to_minus1 (v : Value) : Value :=
  match v with
  | Turns ts => Turns (take (length ts - 1)%nat ts)
  | Tokens ids => Tokens (take (length ids - 1)%nat ids)
  end.

(** [row[key]] *)
Definition row_getitem (row : Row) (key : string) : result Value :=
  match row !! key with
  | Some v => Ok v
  | None => Raise (KeyError key)
  end.

(** The [datasets.Dataset] collaborator: named columns over an ordered
    sequence of records. *)
Record Dataset : Type := { column_names : gset string; rows : list Row }.

(** [len(dataset)] *)
Definition ds_len (ds : Dataset) : nat := length (rows ds).

(** [dataset[key]]: the column as a list of per-record values. *)
Definition ds_getitem (ds : Dataset) (key : string) : result (list Value) :=
  if decide (key ∈ column_names ds)
  then mapR (λ r, row_getitem r key) (rows ds)
  else Raise (KeyError key).

(** [dataset.map(fn, num_proc=..., load_from_cache_file=...)]: [fn] is
    applied to every record in order; the columns written by [fn] join
    the dataset's columns.  The two keyword arguments select scheduling
    and caching only. *)
Definition ds_map (fn : Row → result Row) (num_proc : option Z)
    (load_from_cache_file : bool) (ds : Dataset) : result Dataset :=
  rows' ← mapR fn (rows ds);
  Ok {| column_names := column_names ds ∪ ⋃ (dom <$> rows'); rows := rows' |}.

(** [dataset.filter(fn, num_proc=..., load_from_cache_file=...)] *)
Definition ds_filter (fn : Row → result bool) (num_proc : option Z)
    (load_from_cache_file : bool) (ds : Dataset) : result Dataset :=
  rows' ← filterR fn (rows ds);
  Ok {| column_names := column_names ds; rows := rows' |}.

(** The [PreTrainedTokenizer] collaborator.  Nothing is assumed about
    the chat template beyond its being a function that may raise. *)
Record Tokenizer : Type := {
  apply_chat_template : Value → result (list Z);
  pad_token_id : option Z;
  eos_token_id : option Z
}.

Record DatasetConfig : Type := {
  max_token_length : option Z;
  max_prompt_token_lenth : option Z;
  batched : bool;
  load_from_cache_file : bool;
  num_proc : option Z;
  ncols : Z
}.

(** The dataclass defaults. *)
Definition DatasetConfig_default : DatasetConfig :=
  {| max_token_length := None; max_prompt_token_lenth := None;
     batched := false; load_from_cache_file := false;
     num_proc := Some 1; ncols := 2 |}.

(** ** Logging *)

Inductive Level : Type := WARNING | INFO.
Record LogRecord : Type := { levelname : Level; message : string }.

(** A computation that may append to the log and may raise. *)
Definition Logging (A : Type) : Type := list LogRecord → result A * list LogRecord.

Definition logging_warn (msg : string) : Logging unit :=
  λ log, (Ok tt, (log ++ [{| levelname := WARNING; message := msg |}])%list).

(** ** Statistics helpers *)

(** [max(xs)] and [min(xs)] raise [ValueError] on an empty iterable. *)
Definition py_max (xs : list Z) : result Z :=
  match xs with
  | [] => Raise ValueError
  | x :: xs' => Ok (foldl Z.max x xs')
  end.

Definition py_min (xs : list Z) : result Z :=
  match xs with
  | [] => Raise ValueError
  | x :: xs' => Ok (foldl Z.min x xs')
  end.

(** [sum(xs)] *)
Definition py_sum (xs : list Z) : Z := foldl Z.add 0 xs.

(** [a / b] on ints: the quotient as a number, [ZeroDivisionError] when
    [b] is zero.  The quotient is kept exact, as a canonical rational. *)
Definition py_truediv (a b : Z) : result Qc :=
  if decide (b = 0) then Raise ZeroDivisionError
  else Ok (Q2Qc (inject_Z a / inject_Z b)).

Module Stats.
(** The per-field dict
    [{"max_token_length": _, "min_token_length": _, "mean_token_length": _}] *)
Record t : Type := {
  max_token_length : Z;
  min_token_length : Z;
  mean_token_length : Qc
}.
End Stats.

(** ** Plotting *)

Definition logging_info (msg : string) : Logging unit :=
  λ log, (Ok tt, (log ++ [{| levelname := INFO; message := msg |}])%list).

(** The calls made on [matplotlib.pyplot], in the order they are made.
    [plt_hist] always carries [alpha=0.5, edgecolor="black"]. *)
Inductive PltCall : Type :=
| plt_figure (width height : Z)
| plt_hist (x : list Z) (bins : Z) (label : string)
| plt_title (s : string)
| plt_xlabel (s : string)
| plt_ylabel (s : string)
| plt_legend (loc : string)
| plt_savefig (fname : string).

(** What a plotting method can change: the pyplot calls made so far and
    the log. *)
Record World : Type := { plt_calls : list PltCall; log_records : list LogRecord }.

(** ** class DatasetProcessor *)

Record Processor : Type := {
  tokenizer : Tokenizer;
  config : option DatasetConfig
}.

(** [self.config.<attr>]: attribute access on [None] raises. *)
Definition self_config (self : Processor) : result DatasetConfig :=
  match config self with
  | Some cfg => Ok cfg
  | None => Raise AttributeError
  end.

Module DatasetProcessor.

Definition pad_eos_warning : string :=
  "Tokenizer's pad token is the same as EOS token, this might cause the model to not learn to generate EOS tokens.".

Definition __init__ (tokenizer0 : Tokenizer) (config0 : option DatasetConfig)
    : Logging Processor :=
  λ log,
    let self := {| tokenizer := tokenizer0; config := config0 |} in
    if decide (pad_token_id tokenizer0 = eos_token_id tokenizer0)
    then let '(_, log') := logging_warn pad_eos_warning log in (Ok self, log')
    else (Ok self, log).

Definition tokenize (self : Processor) (dataset : Dataset) : result Dataset :=
  Raise NotImplementedError.

Definition filter (self : Processor) (dataset : Dataset) : Logging Dataset :=
  λ log,
    match config self with
    | None =>
        let '(_, log') := logging_warn "No config provided, skipping filtering" log in
        (Ok dataset, log')
    | Some _ => (Raise NotImplementedError, log)
    end.

(** [len(x) for x in dataset[key]] *)
Definition token_lengths (dataset : Dataset) (key : string) : result (list Z) :=
  col ← ds_getitem dataset key; Ok (map py_len col).

(** The dict display of one loop iteration; its three entries are
    evaluated in the order written. *)
Definition field_stats (dataset : Dataset) (key : string) : result Stats.t :=
  mx ← (token_lengths dataset key ≫= py_max);
  mn ← (token_lengths dataset key ≫= py_min);
  total ← (py_sum <$> token_lengths dataset key);
  count ← ((λ col, Z.of_nat (length col)) <$> ds_getitem dataset key);
  mean ← py_truediv total count;
  Ok {| Stats.max_token_length := mx;
        Stats.min_token_length := mn;
        Stats.mean_token_length := mean |}.

Definition get_token_length_stats (self : Processor) (features : list string)
    (dataset : Dataset) : result (gmap string Stats.t) :=
  foldR (λ stats key, st ← field_stats dataset key; Ok (<[key := st]> stats))
        ∅ features.

(** The [for feature in features] loop: one histogram per feature; a
    failing column access leaves the calls made so far. *)
Fixpoint plot_histograms (dataset : Dataset) (bins : Z) (features : list string)
    (calls : list PltCall) : result unit * list PltCall :=
  match features with
  | [] => (Ok tt, calls)
  | feature :: features' =>
      match token_lengths dataset feature with
      | Ok lengths =>
          plot_histograms dataset bins features'
            (calls ++ [plt_hist lengths bins feature])%list
      | Raise e => (Raise e, calls)
      end
  end.

Definition get_token_length_visualization (self : Processor) (features : list string)
    (dataset : Dataset) (save_path : string) (bins : Z) (w : World)
    : result unit * World :=
  let calls := (plt_calls w ++ [plt_figure 10 5])%list in
  match plot_histograms dataset bins features calls with
  | (Ok _, calls) =>
      let calls := (calls ++ [plt_title "Token Length Distribution";
                              plt_xlabel "Token Length";
                              plt_ylabel "Frequency";
                              plt_legend "upper right";
                              plt_savefig save_path])%list in
      let '(_, log) :=
        logging_info ("Saved token length distribution plot to " ++ save_path)%string
                     (log_records w) in
      (Ok tt, {| plt_calls := calls; log_records := log |})
  | (Raise e, calls) =>
      (Raise e, {| plt_calls := calls; log_records := log_records w |})
  end.

(** The keyword defaults [save_path="tmp.png"], [bins=30]. *)
Definition default_save_path : string := "tmp.png".
Definition default_bins : Z := 30.

End DatasetProcessor.

(** ** class PreferenceDatasetProcessor(DatasetProcessor) *)

Module PreferenceDatasetProcessor.

Definition tokenize_fn (self : Processor) (row : Row) : result Row :=
  chosen ← row_getitem row "chosen";
  prompt' ← apply_chat_template (tokenizer self) (slice_to_minus1 chosen);
  let row := <["prompt" := Tokens prompt']> row in
  chosen ← row_getitem row "chosen";
  chosen' ← apply_chat_template (tokenizer self) chosen;
  let row := <["chosen" := Tokens chosen']> row in
  rejected ← row_getitem row "rejected";
  rejected' ← apply_chat_template (tokenizer self) rejected;
  let row := <["rejected" := Tokens rejected']> row in
  Ok row.

Definition tokenize (self : Processor) (dataset : Dataset) : result Dataset :=
  cfg ← self_config self;
  ds_map (tokenize_fn self) (num_proc cfg) (load_from_cache_file cfg) dataset.

(** The conditional expression binds weaker than [and] and nests to
    the right: [A if C1 else ((True and B) if C2 else ((True and D) if C2 else True))]. *)
Definition filter_fn (self : Processor) (row : Row) : result bool :=
  cfg ← self_config self;
  match max_prompt_token_lenth cfg with
  | Some bound =>
      prompt ← row_getitem row "prompt"; Ok (py_len prompt <=? bound)
  | None =>
      match max_token_length cfg with
      | Some bound =>
          chosen ← row_getitem row "chosen";
          Ok (true && (py_len chosen <=? bound))
      | None =>
          match max_token_length cfg with
          | Some bound =>
              rejected ← row_getitem row "rejected";
              Ok (true && (py_len rejected <=? bound))
          | None => Ok true
          end
      end
  end.

Definition filter (self : Processor) (dataset : Dataset) : result Dataset :=
  cfg ← self_config self;
  ds_filter (filter_fn self) (num_proc cfg) (load_from_cache_file cfg) dataset.

Definition get_token_length_stats (self : Processor) (dataset : Dataset)
    : result (gmap string Stats.t) :=
  DatasetProcessor.get_token_length_stats self ["prompt"; "chosen"; "rejected"] dataset.

Definition get_token_length_visualization (self : Processor) (dataset : Dataset)
    (w : World) : result unit * World :=
  DatasetProcessor.get_token_length_visualization self
    ["prompt"; "chosen"; "rejected"] dataset
    DatasetProcessor.default_save_path DatasetProcessor.default_bins w.

End PreferenceDatasetProcessor.

(** ** class SFTDatasetProcessor(DatasetProcessor) *)

Module SFTDatasetProcessor.

Definition tokenize_fn (self : Processor) (row : Row) : result Row :=
  messages ← row_getitem row "messages";
  prompt' ← apply_chat_template (tokenizer self) (slice_to_minus1 messages);
  let row := <["prompt" := Tokens prompt']> row in
  messages ← row_getitem row "messages";
  messages' ← apply_chat_template (tokenizer self) messages;
  let row := <["messages" := Tokens messages']> row in
  Ok row.

Definition tokenize (self : Processor) (dataset : Dataset) : result Dataset :=
  cfg ← self_config self;
  ds_map (tokenize_fn self) (num_proc cfg) (load_from_cache_file cfg) dataset.

Definition filter_fn (self : Processor) (row : Row) : result bool :=
  cfg ← self_config self;
  match max_prompt_token_lenth cfg with
  | Some bound =>
      prompt ← row_getitem row "prompt"; Ok (py_len prompt <=? bound)
  | None =>
      match max_token_length cfg with
      | Some bound =>
          messages ← row_getitem row "messages";
          Ok (true && (py_len messages <=? bound))
      | None => Ok true
      end
  end.

Definition filter (self : Processor) (dataset : Dataset) : result Dataset :=
  cfg ← self_config self;
  ds_filter (filter_fn self) (num_proc cfg) (load_from_cache_file cfg) dataset.

Definition get_token_length_stats (self : Processor) (dataset : Dataset)
    : result (gmap string Stats.t) :=
  DatasetProcessor.get_token_length_stats self ["prompt"; "messages"] dataset.

Definition get_token_length_visualization (self : Processor) (dataset : Dataset)
    (w : World) : result unit * World :=
  DatasetProcessor.get_token_length_visualization self
    ["prompt"; "messages"] dataset
    DatasetProcessor.default_save_path DatasetProcessor.default_bins w.

End SFTDatasetProcessor.

(** ** visualize_token *)

Definition COLORS : list string :=
  ["on red"; "on green"; "on blue"; "on yellow"; "on magenta"].

(** One [rich_text.append(text, style=...)]. *)
Record Segment : Type := { text : string; style : string }.

(** How [visualize_token] can end: it prints the text it built, or
    [tokenizer.decode] raises, or the subscript [COLORS[...]] raises. *)
Inductive Outcome : Type :=
| Printed (rich_text : list Segment)
| Raised (e : Exception)
| RaisedIndexError.

(** The [for i, token in enumerate(tokens)] loop from index [i] on. *)
Fixpoint visualize_loop (decode : Z → result string) (i : nat) (tokens : list Z)
    (rich_text : list Segment) : Outcome :=
  match tokens with
  | [] => Printed rich_text
  | token :: tokens' =>
      match COLORS !! (i mod length COLORS)%nat with
      | None => RaisedIndexError
      | Some color =>
          match decode token with
          | Raise e => Raised e
          | Ok decoded_token =>
              visualize_loop decode (S i) tokens'
                (rich_text ++ [{| text := decoded_token; style := color |}])%list
          end
      end
  end.

(** [decode] stands for [tokenizer.decode]. *)
Definition visualize_token (tokens : list Z) (decode : Z → result string) : Outcome :=
  visualize_loop decode 0 tokens [].

(** ** Concrete inputs used by the examples below *)

(** A toy tokenizer: one token per turn, the length of its content. *)
Definition toy_apply_chat_template (v : Value) : result (list Z) :=
  match v with
  | Turns ts => Ok (map (λ t, Z.of_nat (String.length (content t))) ts)
  | Tokens _ => Raise TypeError
  end.

Definition toy_tokenizer : Tokenizer :=
  {| apply_chat_template := toy_apply_chat_template;
     pad_token_id := Some 0; eos_token_id := Some 2 |}.

Definition toy_tokenizer_pad_eos : Tokenizer :=
  {| apply_chat_template := toy_apply_chat_template;
     pad_token_id := Some 2; eos_token_id := Some 2 |}.

Definition config_with (total prompt : option Z) : DatasetConfig :=
  {| max_token_length := total; max_prompt_token_lenth := prompt;
     batched := false; load_from_cache_file := false;
     num_proc := Some 1; ncols := 2 |}.

Definition processor_with (total prompt : option Z) : Processor :=
  {| tokenizer := toy_tokenizer; config := Some (config_with total prompt) |}.

Definition user_turn (s : string) : Turn := {| role := "user"; content := s |}.
Definition assistant_turn (s : string) : Turn := {| role := "assistant"; content := s |}.

(** A tokenized preference record given by its three token sequences. *)
Definition pref_row (prompt chosen rejected : list Z) : Row :=
  <["prompt" := Tokens prompt]> (<["chosen" := Tokens chosen]>
    (<["rejected" := Tokens rejected]> ∅)).

(** A tokenized fine-tuning record. *)
Definition sft_row (prompt messages : list Z) : Row :=
  <["prompt" := Tokens prompt]> (<["messages" := Tokens messages]> ∅).

(** A raw preference record. *)
Definition raw_pref_row (question good bad : string) : Row :=
  <["chosen" := Turns [user_turn question; assistant_turn good]]>
    (<["rejected" := Turns [user_turn question; assistant_turn bad]]> ∅).

(** A raw fine-tuning record. *)
Definition raw_sft_row (question answer : string) : Row :=
  <["messages" := Turns [user_turn question; assistant_turn answer]]> ∅.

(** A toy [decode]: negative ids are not in the vocabulary. *)
Definition toy_decode (token : Z) : result string :=
  if token <? 0 then Raise ValueError
  else if Z.even token then Ok "ab" else Ok "c".

(** The state before any plotting or logging. *)
Definition fresh_world : World := {| plt_calls := []; log_records := [] |}.

(** The pyplot call is a [plt.hist]. *)
Definition is_hist (c : PltCall) : Prop := ∃ x bins label, c = plt_hist x bins label.

(** The pyplot calls that close a plot and save it to [save_path]. *)
Definition finish_plot (save_path : string) : list PltCall :=
  [plt_title "Token Length Distribution"; plt_xlabel "Token Length";
   plt_ylabel "Frequency"; plt_legend "upper right"; plt_savefig save_path].

(** * Properties *)

(** ** The error monad's list operators *)

Lemma mapR_length {A B} (f : A → result B) (l : list A) (l' : list B) :
  mapR f l = Ok l' → length l' = length l.
Proof.
  revert l'. induction l as [|x xs IH]; intros l' H; simpl in H.
  - by inversion H.
  - destruct (f x) as [y|e]; simpl in H; [|discriminate].
    destruct (mapR f xs) as [ys|e]; simpl in H; [|discriminate].
    inversion H; subst. simpl. f_equal. by apply IH.
Qed.

Lemma mapR_total {A B} (f : A → result B) (l : list A) :
  Forall (λ x, is_Ok (f x)) l → is_Ok (mapR f l).
Proof.
  induction 1 as [|x xs [y Hy] _ [ys Hys]]; simpl.
  - by eexists.
  - rewrite Hy, Hys. by eexists.
Qed.

Lemma mapR_ok {A B} (f : A → result B) (g : A → B) (l : list A) :
  Forall (λ x, f x = Ok (g x)) l → mapR f l = Ok (map g l).
Proof.
  induction 1 as [|x xs Hx _ IH]; simpl; [done|]. by rewrite Hx, IH.
Qed.

Lemma filterR_all_true {A} (f : A → result bool) (l : list A) :
  (∀ x, f x = Ok true) → filterR f l = Ok l.
Proof.
  intros Hf. induction l as [|x xs IH]; simpl; [done|]. by rewrite Hf, IH.
Qed.

Lemma Dataset_eta (ds : Dataset) :
  {| column_names := column_names ds; rows := rows ds |} = ds.
Proof. by destruct ds. Qed.

(** ** Filtering *)

Section filter_predicates.
Context (self : Processor) (cfg : DatasetConfig).
Hypothesis Hcfg : config self = Some cfg.

Lemma self_config_Some : self_config self = Ok cfg.
Proof using Hcfg. unfold self_config. by rewrite Hcfg. Qed.

(** What the preference predicate computes once the prompt bound is set. *)
Lemma pref_filter_fn_prompt_set (row : Row) (bound : Z) :
  max_prompt_token_lenth cfg = Some bound →
  PreferenceDatasetProcessor.filter_fn self row
  = (prompt ← row_getitem row "prompt"; Ok (py_len prompt <=? bound)).
Proof using Hcfg.
  intros Hb. unfold PreferenceDatasetProcessor.filter_fn.
  rewrite self_config_Some. simpl. by rewrite Hb.
Qed.

Lemma sft_filter_fn_prompt_set (row : Row) (bound : Z) :
  max_prompt_token_lenth cfg = Some bound →
  SFTDatasetProcessor.filter_fn self row
  = (prompt ← row_getitem row "prompt"; Ok (py_len prompt <=? bound)).
Proof using Hcfg.
  intros Hb. unfold SFTDatasetProcessor.filter_fn.
  rewrite self_config_Some. simpl. by rewrite Hb.
Qed.

(** With the prompt bound unset, the preference predicate looks at
    [chosen] only. *)
Lemma pref_filter_fn_prompt_unset (row : Row) :
  max_prompt_token_lenth cfg = None →
  PreferenceDatasetProcessor.filter_fn self row
  = match max_token_length cfg with
    | Some bound => chosen ← row_getitem row "chosen"; Ok (py_len chosen <=? bound)
    | None => Ok true
    end.
Proof using Hcfg.
  intros Hb. unfold PreferenceDatasetProcessor.filter_fn.
  rewrite self_config_Some. simpl. rewrite Hb.
  destruct (max_token_length cfg); [|done].
  by destruct (row_getitem row "chosen").
Qed.

Lemma pref_filter_fn_unbounded (row : Row) :
  max_token_length cfg = None → max_prompt_token_lenth cfg = None →
  PreferenceDatasetProcessor.filter_fn self row = Ok true.
Proof using Hcfg.
  intros Ht Hp. rewrite pref_filter_fn_prompt_unset by done. by rewrite Ht.
Qed.

Lemma sft_filter_fn_unbounded (row : Row) :
  max_token_length cfg = None → max_prompt_token_lenth cfg = None →
  SFTDatasetProcessor.filter_fn self row = Ok true.
Proof using Hcfg.
  intros Ht Hp. unfold SFTDatasetProcessor.filter_fn.
  rewrite self_config_Some. simpl. by rewrite Hp, Ht.
Qed.
End filter_predicates.

(** C1 (the code departs from the stated conjunction).  With
    [max_token_length = 5] and [max_prompt_token_lenth = 10], a record whose
    prompt has one token and whose [chosen] (resp. [messages]) has six
    tokens passes both predicates although six exceeds the bound; with only
    [max_token_length = 5] set, a record whose [rejected] has six tokens
    passes the preference predicate. *)
Theorem filter_fn_keeps_bound_violations :
  PreferenceDatasetProcessor.filter_fn (processor_with (Some 5) (Some 10))
    (pref_row [1] [1; 2; 3; 4; 5; 6] [1]) = Ok true
  ∧ SFTDatasetProcessor.filter_fn (processor_with (Some 5) (Some 10))
    (sft_row [1] [1; 2; 3; 4; 5; 6]) = Ok true
  ∧ PreferenceDatasetProcessor.filter_fn (processor_with (Some 5) None)
    (pref_row [1] [1] [1; 2; 3; 4; 5; 6]) = Ok true
  ∧ py_len (Tokens [1; 2; 3; 4; 5; 6]) > 5.
Proof. repeat split; vm_compute; reflexivity. Qed.

(** C2.  When [max_prompt_token_lenth] is set to [bound], both filter
    predicates answer [len(row["prompt"]) <= bound] and nothing else: any
    other processor with the same prompt bound, on any other record with
    the same [prompt] entry, gives the same answer, whatever
    [max_token_length] and the other fields are. *)
Theorem filter_fn_prompt_bound_alone_decides
    (self self' : Processor) (cfg cfg' : DatasetConfig) (row row' : Row) (bound : Z) :
  config self = Some cfg → config self' = Some cfg' →
  max_prompt_token_lenth cfg = Some bound →
  max_prompt_token_lenth cfg' = Some bound →
  row !! "prompt" = row' !! "prompt" →
  (PreferenceDatasetProcessor.filter_fn self row
     = (prompt ← row_getitem row "prompt"; Ok (py_len prompt <=? bound))
   ∧ PreferenceDatasetProcessor.filter_fn self' row'
     = PreferenceDatasetProcessor.filter_fn self row)
  ∧ (SFTDatasetProcessor.filter_fn self row
     = (prompt ← row_getitem row "prompt"; Ok (py_len prompt <=? bound))
   ∧ SFTDatasetProcessor.filter_fn self' row'
     = SFTDatasetProcessor.filter_fn self row).
Proof.
  intros Hc Hc' Hb Hb' Hrow.
  rewrite (pref_filter_fn_prompt_set self cfg Hc row bound Hb).
  rewrite (pref_filter_fn_prompt_set self' cfg' Hc' row' bound Hb').
  rewrite (sft_filter_fn_prompt_set self cfg Hc row bound Hb).
  rewrite (sft_filter_fn_prompt_set self' cfg' Hc' row' bound Hb').
  unfold row_getitem. rewrite Hrow. done.
Qed.

Lemma filter_fn_prompt_bound_alone_decides_witness :
  PreferenceDatasetProcessor.filter_fn (processor_with None (Some 3))
    (pref_row [1; 2] [1] [1; 2; 3; 4]) = Ok true
  ∧ PreferenceDatasetProcessor.filter_fn (processor_with (Some 0) (Some 3))
    (pref_row [1; 2] [7; 7; 7; 7; 7] []) = Ok true.
Proof.
  destruct (filter_fn_prompt_bound_alone_decides
              (processor_with None (Some 3)) (processor_with (Some 0) (Some 3))
              (config_with None (Some 3)) (config_with (Some 0) (Some 3))
              (pref_row [1; 2] [1] [1; 2; 3; 4]) (pref_row [1; 2] [7; 7; 7; 7; 7] [])
              3 eq_refl eq_refl eq_refl eq_refl eq_refl) as [[H1 H2] _].
  split.
  - rewrite H1. reflexivity.
  - rewrite H2, H1. reflexivity.
Defined.

(** C3.  With both bounds unset the predicate of either variant is true
    on every record and [filter] returns the dataset it was given. *)
Theorem filter_unbounded_is_identity
    (self : Processor) (cfg : DatasetConfig) (dataset : Dataset) :
  config self = Some cfg →
  max_token_length cfg = None → max_prompt_token_lenth cfg = None →
  (∀ row, PreferenceDatasetProcessor.filter_fn self row = Ok true)
  ∧ PreferenceDatasetProcessor.filter self dataset = Ok dataset
  ∧ (∀ row, SFTDatasetProcessor.filter_fn self row = Ok true)
  ∧ SFTDatasetProcessor.filter self dataset = Ok dataset.
Proof.
  intros Hc Ht Hp.
  pose proof (λ row, pref_filter_fn_unbounded self cfg Hc row Ht Hp) as Hpref.
  pose proof (λ row, sft_filter_fn_unbounded self cfg Hc row Ht Hp) as Hsft.
  repeat split; try done.
  - unfold PreferenceDatasetProcessor.filter, ds_filter.
    rewrite (self_config_Some self cfg Hc). simpl.
    rewrite (filterR_all_true _ _ Hpref). simpl. by rewrite Dataset_eta.
  - unfold SFTDatasetProcessor.filter, ds_filter.
    rewrite (self_config_Some self cfg Hc). simpl.
    rewrite (filterR_all_true _ _ Hsft). simpl. by rewrite Dataset_eta.
Qed.

Lemma filter_unbounded_is_identity_witness :
  let ds := {| column_names := {["prompt"; "chosen"; "rejected"]};
               rows := [pref_row [1; 2] [1; 2; 3] [1; 2; 4]; pref_row [] [5] [6; 7]] |} in
  PreferenceDatasetProcessor.filter (processor_with None None) ds = Ok ds
  ∧ SFTDatasetProcessor.filter (processor_with None None) ds = Ok ds.
Proof.
  intros ds.
  destruct (filter_unbounded_is_identity (processor_with None None)
              (config_with None None) ds eq_refl eq_refl eq_refl)
    as (_ & H1 & _ & H2).
  exact (conj H1 H2).
Defined.

(** C10.  Two records with the same [prompt] and [chosen] entries get the
    same answer from the preference predicate under every processor:
    [rejected] is never consulted. *)
Theorem pref_filter_fn_ignores_rejected (self : Processor) (row row' : Row) :
  row !! "prompt" = row' !! "prompt" →
  row !! "chosen" = row' !! "chosen" →
  PreferenceDatasetProcessor.filter_fn self row
  = PreferenceDatasetProcessor.filter_fn self row'.
Proof.
  intros Hp Hc. unfold PreferenceDatasetProcessor.filter_fn, self_config.
  destruct (config self) as [cfg|]; simpl; [|done].
  unfold row_getitem. rewrite Hp, Hc.
  destruct (max_prompt_token_lenth cfg); [done|].
  destruct (max_token_length cfg); [done|done].
Qed.

Lemma pref_filter_fn_ignores_rejected_witness :
  PreferenceDatasetProcessor.filter_fn (processor_with (Some 2) None)
    (pref_row [1] [1; 2] [])
  = PreferenceDatasetProcessor.filter_fn (processor_with (Some 2) None)
    (pref_row [1] [1; 2] [9; 9; 9; 9; 9; 9; 9]).
Proof.
  apply (pref_filter_fn_ignores_rejected (processor_with (Some 2) None)
           (pref_row [1] [1; 2] []) (pref_row [1] [1; 2] [9; 9; 9; 9; 9; 9; 9]));
    reflexivity.
Defined.

(** ** Tokenization *)

Lemma take_pred_length_removelast {A} (l : list A) :
  take (length l - 1)%nat l = removelast l.
Proof.
  induction l as [|x [|y ys] IH]; [done|done|].
  change (removelast (x :: y :: ys)) with (x :: removelast (y :: ys)).
  rewrite <- IH. simpl. by rewrite Nat.sub_0_r.
Qed.

Lemma slice_to_minus1_Turns (ts : list Turn) :
  slice_to_minus1 (Turns ts) = Turns (removelast ts).
Proof. simpl. by rewrite take_pred_length_removelast. Qed.

Section tokenize_fn.
Context (self : Processor).


End tokenize_fn.



(** C5.  Whenever [tokenize] of either variant returns a dataset, that
    dataset has as many records as the input; and it does return one as
    soon as a configuration is present and [tokenize_fn] succeeds on every
    record. *)
Theorem tokenize_preserves_record_count (self : Processor) (dataset : Dataset) :
  (∀ dataset', PreferenceDatasetProcessor.tokenize self dataset = Ok dataset' →
               ds_len dataset' = ds_len dataset)
  ∧ (∀ dataset', SFTDatasetProcessor.tokenize self dataset = Ok dataset' →
                 ds_len dataset' = ds_len dataset)
  ∧ (is_Some (config self) →
     Forall (λ row, is_Ok (PreferenceDatasetProcessor.tokenize_fn self row)) (rows dataset) →
     ∃ dataset', PreferenceDatasetProcessor.tokenize self dataset = Ok dataset'
                 ∧ ds_len dataset' = ds_len dataset)
  ∧ (is_Some (config self) →
     Forall (λ row, is_Ok (SFTDatasetProcessor.tokenize_fn self row)) (rows dataset) →
     ∃ dataset', SFTDatasetProcessor.tokenize self dataset = Ok dataset'
                 ∧ ds_len dataset' = ds_len dataset).
Proof.
  assert (Hlen : ∀ fn np lc dataset', ds_map fn np lc dataset = Ok dataset' →
                                      ds_len dataset' = ds_len dataset).
  { intros fn np lc dataset' H. unfold ds_map in H.
    destruct (mapR fn (rows dataset)) as [rows'|e] eqn:Hrows; simpl in H; [|discriminate].
    inversion H; subst. unfold ds_len. simpl. by eapply mapR_length. }
  assert (Htot : ∀ fn np lc, Forall (λ row, is_Ok (fn row)) (rows dataset) →
                             is_Ok (ds_map fn np lc dataset)).
  { intros fn np lc H. unfold ds_map.
    destruct (mapR_total fn (rows dataset) H) as [rows' ->]. simpl. by eexists. }
  unfold PreferenceDatasetProcessor.tokenize, SFTDatasetProcessor.tokenize, self_config.
  repeat split.
  - intros dataset'. destruct (config self); simpl; [apply Hlen|discriminate].
  - intros dataset'. destruct (config self); simpl; [apply Hlen|discriminate].
  - intros [cfg ->] Hrows. simpl.
    destruct (Htot (PreferenceDatasetProcessor.tokenize_fn self)
                (num_proc cfg) (load_from_cache_file cfg) Hrows) as [dataset' H].
    exists dataset'. split; [done|]. by eapply Hlen.
  - intros [cfg ->] Hrows. simpl.
    destruct (Htot (SFTDatasetProcessor.tokenize_fn self)
                (num_proc cfg) (load_from_cache_file cfg) Hrows) as [dataset' H].
    exists dataset'. split; [done|]. by eapply Hlen.
Qed.

Lemma tokenize_preserves_record_count_witness :
  let pref := {| column_names := {["chosen"; "rejected"]};
                 rows := [raw_pref_row "hi" "hello" "no"; raw_pref_row "2+2" "4" "five"] |} in
  let sft := {| column_names := {["messages"]};
                rows := [raw_sft_row "hi" "hello"; raw_sft_row "2+2" "4"] |} in
  (∃ dataset', PreferenceDatasetProcessor.tokenize (processor_with None None) pref
               = Ok dataset' ∧ ds_len dataset' = 2%nat)
  ∧ (∃ dataset', SFTDatasetProcessor.tokenize (processor_with None None) sft
                 = Ok dataset' ∧ ds_len dataset' = 2%nat).
Proof.
  intros pref sft. split.
  - apply (proj1 (proj2 (proj2
      (tokenize_preserves_record_count (processor_with None None) pref)))).
    + by eexists.
    + repeat constructor; eexists; vm_compute; reflexivity.
  - apply (proj2 (proj2 (proj2
      (tokenize_preserves_record_count (processor_with None None) sft)))).
    + by eexists.
    + repeat constructor; eexists; vm_compute; reflexivity.
Defined.

(** ** Length statistics *)

Lemma foldl_max_replicate (n : nat) (x : Z) : foldl Z.max x (replicate n x) = x.
Proof. induction n as [|n IH]; simpl; [done|]. by rewrite Z.max_id. Qed.

Lemma foldl_min_replicate (n : nat) (x : Z) : foldl Z.min x (replicate n x) = x.
Proof. induction n as [|n IH]; simpl; [done|]. by rewrite Z.min_id. Qed.

Lemma foldl_add_replicate (n : nat) (acc x : Z) :
  foldl Z.add acc (replicate n x) = acc + x * Z.of_nat n.
Proof.
  revert acc. induction n as [|n IH]; intros acc; simpl foldl.
  - change (Z.of_nat 0) with 0. lia.
  - rewrite IH. lia.
Qed.

Lemma py_truediv_multiple (x n : Z) :
  n ≠ 0 → py_truediv (x * n) n = Ok (Q2Qc (inject_Z x)).
Proof.
  intros Hn. unfold py_truediv. destruct (decide (n = 0)) as [|_]; [done|].
  f_equal. apply Q2Qc_eq_iff. rewrite inject_Z_mult.
  apply Qdiv_mult_l. intros H. apply Hn.
  by apply (proj1 (inject_Z_injective n 0)).
Qed.

(** A column in which every record holds a sequence of [len] elements. *)
Lemma column_uniform (rs : list Row) (key : string) (len : Z) :
  Forall (λ row : Row, ∃ v, row !! key = Some v ∧ py_len v = len) rs →
  ∃ col, mapR (λ r, row_getitem r key) rs = Ok col
         ∧ length col = length rs
         ∧ map py_len col = replicate (length rs) len.
Proof.
  induction 1 as [|row rs (v & Hv & Hlen) _ (col & Hcol & Hl & Hm)].
  - by exists [].
  - exists (v :: col). cbn [mapR]. unfold row_getitem in *. rewrite Hv. simpl mbind.
    rewrite Hcol. simpl. by rewrite Hl, Hm, Hlen.
Qed.

Lemma field_stats_uniform (dataset : Dataset) (key : string) (len : Z) :
  rows dataset ≠ [] →
  key ∈ column_names dataset →
  Forall (λ row : Row, ∃ v, row !! key = Some v ∧ py_len v = len) (rows dataset) →
  DatasetProcessor.field_stats dataset key
  = Ok {| Stats.max_token_length := len;
          Stats.min_token_length := len;
          Stats.mean_token_length := Q2Qc (inject_Z len) |}.
Proof.
  intros Hne Hcol Hrows.
  destruct (column_uniform _ _ _ Hrows) as (col & Hget & Hl & Hm).
  unfold DatasetProcessor.field_stats, DatasetProcessor.token_lengths, ds_getitem.
  destruct (decide (key ∈ column_names dataset)) as [_|]; [|done].
  rewrite Hget. simpl. rewrite Hm, Hl.
  destruct (rows dataset) as [|row rs]; [done|].
  cbn [length replicate py_max py_min mbind result_bind].
  rewrite foldl_max_replicate, foldl_min_replicate.
  unfold py_sum. cbn [foldl]. rewrite foldl_add_replicate.
  replace (0 + len + len * Z.of_nat (length rs))
    with (len * Z.of_nat (S (length rs))) by lia.
  rewrite py_truediv_multiple by lia. done.
Qed.

Lemma foldl_insert_lookup {V} (f : string → V) (l : list string)
    (acc : gmap string V) (key : string) :
  foldl (λ m k, <[k := f k]> m) acc l !! key
  = if decide (key ∈ l) then Some (f key) else acc !! key.
Proof.
  revert acc. induction l as [|k l IH]; intros acc; simpl; [done|].
  rewrite IH. destruct (decide (key ∈ l)) as [Hin|Hnin].
  - rewrite decide_True by (by right). done.
  - destruct (decide (key = k)) as [->|Hne].
    + rewrite decide_True by (by left). by rewrite lookup_insert_eq.
    + rewrite decide_False by (intros [?|?]%elem_of_cons; done).
      by rewrite lookup_insert_ne.
Qed.

Lemma get_token_length_stats_fold (dataset : Dataset) (st : string → Stats.t)
    (features : list string) (acc : gmap string Stats.t) :
  (∀ key, key ∈ features → DatasetProcessor.field_stats dataset key = Ok (st key)) →
  foldR (λ stats key, s ← DatasetProcessor.field_stats dataset key;
                      Ok (<[key := s]> stats)) acc features
  = Ok (foldl (λ m k, <[k := st k]> m) acc features).
Proof.
  revert acc. induction features as [|k ks IH]; intros acc Hst; [done|].
  cbn [foldR foldl]. rewrite (Hst k) by (by left). simpl mbind.
  apply IH. intros key Hin. apply Hst. by right.
Qed.

(** C7.  On a non-empty dataset in which, for each requested field, every
    record holds a sequence of one common length [L field], the statistics
    of that field are max = min = mean = [L field]; fields that were not
    requested have no entry. *)
Theorem get_token_length_stats_uniform_lengths
    (self : Processor) (features : list string) (dataset : Dataset) (L : string → nat) :
  rows dataset ≠ [] →
  (∀ key, key ∈ features →
     key ∈ column_names dataset
     ∧ Forall (λ row : Row, ∃ v, row !! key = Some v ∧ py_len v = Z.of_nat (L key))
              (rows dataset)) →
  ∃ stats,
    DatasetProcessor.get_token_length_stats self features dataset = Ok stats
    ∧ (∀ key, key ∈ features →
         stats !! key
         = Some {| Stats.max_token_length := Z.of_nat (L key);
                   Stats.min_token_length := Z.of_nat (L key);
                   Stats.mean_token_length := Q2Qc (inject_Z (Z.of_nat (L key))) |})
    ∧ (∀ key, key ∉ features → stats !! key = None).
Proof.
  intros Hne Hcols.
  set (st := λ key, {| Stats.max_token_length := Z.of_nat (L key);
                       Stats.min_token_length := Z.of_nat (L key);
                       Stats.mean_token_length := Q2Qc (inject_Z (Z.of_nat (L key))) |}).
  exists (foldl (λ m k, <[k := st k]> m) ∅ features). repeat split.
  - unfold DatasetProcessor.get_token_length_stats.
    apply get_token_length_stats_fold. intros key Hin.
    destruct (Hcols key Hin) as [Hcol Hrows].
    by apply field_stats_uniform.
  - intros key Hin. rewrite foldl_insert_lookup. by rewrite decide_True.
  - intros key Hnin. rewrite foldl_insert_lookup. by rewrite decide_False.
Qed.

Lemma get_token_length_stats_uniform_lengths_witness :
  let ds := {| column_names := {["prompt"; "chosen"; "rejected"]};
               rows := [pref_row [1; 2] [1; 2; 3] [4]; pref_row [5; 6] [7; 8; 9] [0]] |} in
  ∃ stats,
    PreferenceDatasetProcessor.get_token_length_stats (processor_with None None) ds
    = Ok stats
    ∧ stats !! "prompt"
      = Some {| Stats.max_token_length := 2; Stats.min_token_length := 2;
                Stats.mean_token_length := Q2Qc (inject_Z 2) |}
    ∧ stats !! "chosen"
      = Some {| Stats.max_token_length := 3; Stats.min_token_length := 3;
                Stats.mean_token_length := Q2Qc (inject_Z 3) |}
    ∧ stats !! "rejected"
      = Some {| Stats.max_token_length := 1; Stats.min_token_length := 1;
                Stats.mean_token_length := Q2Qc (inject_Z 1) |}.
Proof.
  intros ds.
  set (L := λ key : string,
         if decide (key = "prompt") then 2%nat
         else if decide (key = "chosen") then 3%nat else 1%nat).
  destruct (get_token_length_stats_uniform_lengths (processor_with None None)
              ["prompt"; "chosen"; "rejected"] ds L) as (stats & Hstats & Hfields & _).
  - discriminate.
  - intros key Hin.
    assert (key = "prompt" ∨ key = "chosen" ∨ key = "rejected") as [-> | [-> | ->]].
    { rewrite !elem_of_cons in Hin. rewrite elem_of_nil in Hin. tauto. }
    + split; [set_solver|]. repeat constructor; eexists; split; reflexivity.
    + split; [set_solver|]. repeat constructor; eexists; split; reflexivity.
    + split; [set_solver|]. repeat constructor; eexists; split; reflexivity.
  - exists stats. split; [exact Hstats|].
    split; [|split].
    + apply (Hfields "prompt"). set_solver.
    + apply (Hfields "chosen"). set_solver.
    + apply (Hfields "rejected"). set_solver.
Defined.




(** ** Construction and the base [filter] *)

(** C8.  Without a configuration the base [filter] appends one warning to
    the log and returns the dataset it was given; it does not raise. *)
Theorem base_filter_without_config
    (self : Processor) (dataset : Dataset) (log : list LogRecord) :
  config self = None →
  DatasetProcessor.filter self dataset log
  = (Ok dataset,
     (log ++ [{| levelname := WARNING;
                 message := "No config provided, skipping filtering" |}])%list).
Proof. intros Hc. unfold DatasetProcessor.filter. by rewrite Hc. Qed.

Lemma base_filter_without_config_witness :
  let ds := {| column_names := {["prompt"]}; rows := [sft_row [1] [1; 2]] |} in
  DatasetProcessor.filter {| tokenizer := toy_tokenizer; config := None |} ds []
  = (Ok ds, [{| levelname := WARNING;
                message := "No config provided, skipping filtering" |}]).
Proof.
  intros ds.
  exact (base_filter_without_config
           {| tokenizer := toy_tokenizer; config := None |} ds [] eq_refl).
Defined.

(** C9.  Construction always returns the processor holding the given
    tokenizer and configuration.  It appends exactly one record to the log,
    a warning, when the pad and end-of-sequence identifiers are equal, and
    leaves the log as it was when they differ. *)
Theorem init_warns_iff_pad_is_eos
    (tok : Tokenizer) (cfg : option DatasetConfig) (log : list LogRecord) :
  (pad_token_id tok = eos_token_id tok →
   DatasetProcessor.__init__ tok cfg log
   = (Ok {| tokenizer := tok; config := cfg |},
      (log ++ [{| levelname := WARNING;
                  message := DatasetProcessor.pad_eos_warning |}])%list))
  ∧ (pad_token_id tok ≠ eos_token_id tok →
     DatasetProcessor.__init__ tok cfg log
     = (Ok {| tokenizer := tok; config := cfg |}, log)).
Proof.
  unfold DatasetProcessor.__init__.
  split; intros H; destruct (decide (pad_token_id tok = eos_token_id tok)); done.
Qed.

Lemma init_warns_iff_pad_is_eos_witness :
  DatasetProcessor.__init__ toy_tokenizer_pad_eos (Some DatasetConfig_default) []
  = (Ok {| tokenizer := toy_tokenizer_pad_eos; config := Some DatasetConfig_default |},
     [{| levelname := WARNING; message := DatasetProcessor.pad_eos_warning |}])
  ∧ DatasetProcessor.__init__ toy_tokenizer (Some DatasetConfig_default) []
    = (Ok {| tokenizer := toy_tokenizer; config := Some DatasetConfig_default |}, []).
Proof.
  split.
  - apply (proj1 (init_warns_iff_pad_is_eos toy_tokenizer_pad_eos
                    (Some DatasetConfig_default) [])). reflexivity.
  - apply (proj2 (init_warns_iff_pad_is_eos toy_tokenizer
                    (Some DatasetConfig_default) [])). discriminate.
Defined.

(** * Further properties of the module *)

(** ** More on the error monad's list operators *)

Lemma filterR_Ok_inv {A} (f : A → result bool) (l l' : list A) :
  filterR f l = Ok l' →
  sublist l' l ∧ ∀ x, x ∈ l' ↔ x ∈ l ∧ f x = Ok true.
Proof.
  revert l'. induction l as [|x xs IH]; intros l' H; cbn [filterR] in H.
  - inversion H; subst. split; [done|]. intros y. rewrite elem_of_nil. tauto.
  - destruct (f x) as [b|e] eqn:Hfx; simpl in H; [|discriminate].
    destruct (filterR f xs) as [ys|e]; simpl in H; [|discriminate].
    destruct (IH ys eq_refl) as [Hsub Hmem].
    inversion H; subst; clear H. destruct b.
    + split; [by apply sublist_skip|]. intros y.
      rewrite !elem_of_cons, Hmem. split.
      * intros [->|[Hin Hy]]; auto.
      * intros [[->|Hin] Hy]; auto.
    + split; [by apply sublist_cons|]. intros y.
      rewrite elem_of_cons, Hmem. split.
      * intros [Hin Hy]; auto.
      * intros [[->|Hin] Hy]; [congruence|done].
Qed.

Lemma filterR_idemp {A} (f : A → result bool) (l l' : list A) :
  filterR f l = Ok l' → filterR f l' = Ok l'.
Proof.
  revert l'. induction l as [|x xs IH]; intros l' H; cbn [filterR] in H.
  - by inversion H.
  - destruct (f x) as [b|e] eqn:Hfx; simpl in H; [|discriminate].
    destruct (filterR f xs) as [ys|e]; simpl in H; [|discriminate].
    specialize (IH ys eq_refl). inversion H; subst; clear H. destruct b; [|done].
    cbn [filterR]. by rewrite Hfx, IH.
Qed.

Lemma filterR_total {A} (f : A → result bool) (l : list A) :
  Forall (λ x, is_Ok (f x)) l → is_Ok (filterR f l).
Proof.
  induction 1 as [|x xs [b Hb] _ [ys Hys]]; cbn [filterR].
  - by eexists.
  - rewrite Hb, Hys. by eexists.
Qed.


Lemma mapR_Forall2 {A B} (f : A → result B) (l : list A) (l' : list B) :
  mapR f l = Ok l' ↔ Forall2 (λ x y, f x = Ok y) l l'.
Proof.
  revert l'. induction l as [|x xs IH]; intros l'; cbn [mapR].
  - split; [intros H; inversion H; constructor|intros H; by inversion H].
  - split.
    + intros H. destruct (f x) as [y|e] eqn:Hfx; simpl in H; [|discriminate].
      destruct (mapR f xs) as [ys|e] eqn:Hxs; simpl in H; [|discriminate].
      inversion H; subst. constructor; [done|]. by apply IH.
    + intros H. inversion H as [|? y ? ys Hy Hys]; subst.
      rewrite Hy. simpl. apply IH in Hys. by rewrite Hys.
Qed.

Lemma mapR_first_error {A B} (f : A → result B) (pre post : list A) (x : A)
    (e : Exception) :
  Forall (λ x, is_Ok (f x)) pre → f x = Raise e →
  mapR f (pre ++ x :: post)%list = Raise e.
Proof.
  intros Hpre Hx. induction Hpre as [|y ys [z Hz] _ IH]; cbn [mapR app].
  - by rewrite Hx.
  - change ((fix app (l m : list A) {struct l} : list A :=
               match l with [] => m | a :: l1 => a :: app l1 m end) ys (x :: post))
      with (ys ++ x :: post)%list.
    by rewrite Hz, IH.
Qed.


Lemma ds_filter_Ok_inv (fn : Row → result bool) (np : option Z) (lc : bool)
    (ds ds' : Dataset) :
  ds_filter fn np lc ds = Ok ds' →
  column_names ds' = column_names ds
  ∧ sublist (rows ds') (rows ds)
  ∧ (∀ row, row ∈ rows ds' ↔ row ∈ rows ds ∧ fn row = Ok true)
  ∧ ds_filter fn np lc ds' = Ok ds'.
Proof.
  unfold ds_filter. intros H.
  destruct (filterR fn (rows ds)) as [rows'|e] eqn:Hrows; simpl in H; [|discriminate].
  inversion H; subst; clear H. simpl.
  destruct (filterR_Ok_inv fn _ _ Hrows) as [Hsub Hmem].
  by rewrite (filterR_idemp fn _ _ Hrows).
Qed.

(** ** What [filter] returns *)


(** X2.  Filtering is idempotent: filtering a dataset that [filter]
    returned gives that dataset back. *)
Theorem filter_idempotent (self : Processor) (dataset dataset' : Dataset) :
  (PreferenceDatasetProcessor.filter self dataset = Ok dataset' →
   PreferenceDatasetProcessor.filter self dataset' = Ok dataset')
  ∧ (SFTDatasetProcessor.filter self dataset = Ok dataset' →
     SFTDatasetProcessor.filter self dataset' = Ok dataset').
Proof.
  unfold PreferenceDatasetProcessor.filter, SFTDatasetProcessor.filter, self_config.
  split; intros H; (destruct (config self) as [cfg|]; simpl in *; [|discriminate]);
    by apply ds_filter_Ok_inv in H as (_ & _ & _ & ?).
Qed.




Lemma filter_idempotent_witness :
  let ds := {| column_names := {["prompt"; "messages"]};
               rows := [sft_row [1; 2] [1; 2; 3]; sft_row [1; 2; 3; 4] [1; 2; 3; 4; 5]] |} in
  let ds' := {| column_names := {["prompt"; "messages"]};
                rows := [sft_row [1; 2] [1; 2; 3]] |} in
  SFTDatasetProcessor.filter (processor_with None (Some 3)) ds' = Ok ds'.
Proof.
  intros ds ds'.
  apply (proj2 (filter_idempotent (processor_with None (Some 3)) ds ds')).
  vm_compute. reflexivity.
Defined.





(** X6.  A variant processor built without a configuration cannot
    tokenize or filter: both raise [AttributeError] on every dataset,
    before any record or the tokenizer is touched.  The base class's
    skip-with-a-warning branch is not reached through the variants. *)
Theorem variant_methods_need_config (self : Processor) (dataset : Dataset) :
  config self = None →
  PreferenceDatasetProcessor.tokenize self dataset = Raise AttributeError
  ∧ PreferenceDatasetProcessor.filter self dataset = Raise AttributeError
  ∧ SFTDatasetProcessor.tokenize self dataset = Raise AttributeError
  ∧ SFTDatasetProcessor.filter self dataset = Raise AttributeError.
Proof.
  intros Hc.
  unfold PreferenceDatasetProcessor.tokenize, PreferenceDatasetProcessor.filter,
    SFTDatasetProcessor.tokenize, SFTDatasetProcessor.filter, self_config.
  by rewrite Hc.
Qed.

Lemma variant_methods_need_config_witness :
  PreferenceDatasetProcessor.filter {| tokenizer := toy_tokenizer; config := None |}
    {| column_names := ∅; rows := [] |} = Raise AttributeError.
Proof.
  apply (variant_methods_need_config {| tokenizer := toy_tokenizer; config := None |}
           {| column_names := ∅; rows := [] |} eq_refl).
Defined.

(** ** What [tokenize] returns *)

Lemma ds_map_Ok_inv (fn : Row → result Row) (np : option Z) (lc : bool)
    (ds ds' : Dataset) :
  ds_map fn np lc ds = Ok ds' →
  Forall2 (λ row row', fn row = Ok row') (rows ds) (rows ds')
  ∧ column_names ds' = column_names ds ∪ ⋃ (dom <$> rows ds').
Proof.
  unfold ds_map. intros H.
  destruct (mapR fn (rows ds)) as [rows'|e] eqn:Hrows; simpl in H; [|discriminate].
  inversion H; subst; clear H. simpl. split; [|done]. by apply mapR_Forall2.
Qed.

(** X7.  The records of a dataset returned by [tokenize] are, position by
    position, the results of [tokenize_fn] on the input's records. *)
Theorem tokenize_is_pointwise (self : Processor) (dataset dataset' : Dataset) :
  (PreferenceDatasetProcessor.tokenize self dataset = Ok dataset' →
   Forall2 (λ row row', PreferenceDatasetProcessor.tokenize_fn self row = Ok row')
           (rows dataset) (rows dataset'))
  ∧ (SFTDatasetProcessor.tokenize self dataset = Ok dataset' →
     Forall2 (λ row row', SFTDatasetProcessor.tokenize_fn self row = Ok row')
             (rows dataset) (rows dataset')).
Proof.
  unfold PreferenceDatasetProcessor.tokenize, SFTDatasetProcessor.tokenize, self_config.
  split; intros H; (destruct (config self) as [cfg|]; simpl in H; [|discriminate]);
    by apply ds_map_Ok_inv in H as [? _].
Qed.

(** X8.  [tokenize] is all or nothing: if [tokenize_fn] raises on some
    record and succeeds on all records before it, [tokenize] raises that
    same exception and returns no dataset. *)
Theorem tokenize_raises_first_failure
    (self : Processor) (dataset : Dataset) (pre post : list Row) (row : Row)
    (e : Exception) :
  is_Some (config self) →
  rows dataset = (pre ++ row :: post)%list →
  (Forall (λ r, is_Ok (PreferenceDatasetProcessor.tokenize_fn self r)) pre →
   PreferenceDatasetProcessor.tokenize_fn self row = Raise e →
   PreferenceDatasetProcessor.tokenize self dataset = Raise e)
  ∧ (Forall (λ r, is_Ok (SFTDatasetProcessor.tokenize_fn self r)) pre →
     SFTDatasetProcessor.tokenize_fn self row = Raise e →
     SFTDatasetProcessor.tokenize self dataset = Raise e).
Proof.
  intros [cfg Hc] Hrows.
  unfold PreferenceDatasetProcessor.tokenize, SFTDatasetProcessor.tokenize,
    self_config, ds_map.
  rewrite Hc, Hrows. simpl.
  split; intros Hpre Hrow; by rewrite (mapR_first_error _ pre post row e Hpre Hrow).
Qed.

Lemma tokenize_raises_first_failure_witness :
  PreferenceDatasetProcessor.tokenize (processor_with None None)
    {| column_names := {["chosen"; "rejected"]};
       rows := [raw_pref_row "hi" "hello" "no"; raw_sft_row "hi" "hello";
                raw_pref_row "2+2" "4" "five"] |}
  = Raise (KeyError "chosen").
Proof.
  apply (proj1 (tokenize_raises_first_failure (processor_with None None)
                  {| column_names := {["chosen"; "rejected"]};
                     rows := [raw_pref_row "hi" "hello" "no"; raw_sft_row "hi" "hello";
                              raw_pref_row "2+2" "4" "five"] |}
                  [raw_pref_row "hi" "hello" "no"] [raw_pref_row "2+2" "4" "five"]
                  (raw_sft_row "hi" "hello") (KeyError "chosen")
                  (ex_intro _ _ eq_refl) eq_refl)).
  - repeat constructor. eexists. vm_compute. reflexivity.
  - vm_compute. reflexivity.
Defined.

Lemma pref_tokenize_fn_Ok_fields (self : Processor) (row row' : Row) :
  PreferenceDatasetProcessor.tokenize_fn self row = Ok row' →
  ∃ p c r, row' !! "prompt" = Some (Tokens p)
           ∧ row' !! "chosen" = Some (Tokens c)
           ∧ row' !! "rejected" = Some (Tokens r).
Proof.
  unfold PreferenceDatasetProcessor.tokenize_fn. intros H.
  destruct (row_getitem row "chosen") as [c0|]; simpl in H; [|discriminate].
  destruct (apply_chat_template _ (slice_to_minus1 c0)) as [p|]; simpl in H; [|discriminate].
  destruct (row_getitem (<["prompt":=Tokens p]> row) "chosen") as [c1|];
    simpl in H; [|discriminate].
  destruct (apply_chat_template _ c1) as [c|]; simpl in H; [|discriminate].
  destruct (row_getitem _ "rejected") as [r0|]; simpl in H; [|discriminate].
  destruct (apply_chat_template _ r0) as [r|]; simpl in H; [|discriminate].
  inversion H; subst. exists p, c, r. by simplify_map_eq.
Qed.

Lemma sft_tokenize_fn_Ok_fields (self : Processor) (row row' : Row) :
  SFTDatasetProcessor.tokenize_fn self row = Ok row' →
  ∃ p m, row' !! "prompt" = Some (Tokens p) ∧ row' !! "messages" = Some (Tokens m).
Proof.
  unfold SFTDatasetProcessor.tokenize_fn. intros H.
  destruct (row_getitem row "messages") as [m0|]; simpl in H; [|discriminate].
  destruct (apply_chat_template _ (slice_to_minus1 m0)) as [p|]; simpl in H; [|discriminate].
  destruct (row_getitem (<["prompt":=Tokens p]> row) "messages") as [m1|];
    simpl in H; [|discriminate].
  destruct (apply_chat_template _ m1) as [m|]; simpl in H; [|discriminate].
  inversion H; subst. exists p, m. by simplify_map_eq.
Qed.

Lemma tokenize_is_pointwise_witness :
  let ds := {| column_names := {["messages"]};
               rows := [raw_sft_row "hi" "hello"; raw_sft_row "2+2" "4"] |} in
  match SFTDatasetProcessor.tokenize (processor_with None None) ds with
  | Ok ds' =>
      Forall2 (λ row row',
                 SFTDatasetProcessor.tokenize_fn (processor_with None None) row = Ok row')
              (rows ds) (rows ds')
  | Raise _ => False
  end.
Proof.
  intros ds.
  destruct (SFTDatasetProcessor.tokenize (processor_with None None) ds)
    as [ds'|e] eqn:H.
  - exact (proj2 (tokenize_is_pointwise (processor_with None None) ds ds') H).
  - vm_compute in H. discriminate H.
Defined.

(** X9.  Tokenize then filter never fails on a missing field: every
    record of a dataset returned by [tokenize] carries token sequences
    under all the variant's fields, and the same processor's [filter]
    returns a dataset on it. *)
Theorem filter_after_tokenize_succeeds (self : Processor) (dataset dataset' : Dataset) :
  (PreferenceDatasetProcessor.tokenize self dataset = Ok dataset' →
   Forall (λ row : Row, ∃ p c r, row !! "prompt" = Some (Tokens p)
                                 ∧ row !! "chosen" = Some (Tokens c)
                                 ∧ row !! "rejected" = Some (Tokens r))
          (rows dataset')
   ∧ is_Ok (PreferenceDatasetProcessor.filter self dataset'))
  ∧ (SFTDatasetProcessor.tokenize self dataset = Ok dataset' →
     Forall (λ row : Row, ∃ p m, row !! "prompt" = Some (Tokens p)
                                 ∧ row !! "messages" = Some (Tokens m))
            (rows dataset')
     ∧ is_Ok (SFTDatasetProcessor.filter self dataset')).
Proof.
  split; intros H.
  - assert (Hfields : Forall (λ row : Row, ∃ p c r, row !! "prompt" = Some (Tokens p)
                                ∧ row !! "chosen" = Some (Tokens c)
                                ∧ row !! "rejected" = Some (Tokens r)) (rows dataset')).
    { apply (proj1 (tokenize_is_pointwise self dataset dataset')) in H as H2.
      induction H2 as [|row row' rs rs' Hrow _ IH]; constructor; [|done].
      by apply (pref_tokenize_fn_Ok_fields self row). }
    split; [done|].
    unfold PreferenceDatasetProcessor.tokenize, self_config in H.
    unfold PreferenceDatasetProcessor.filter, self_config, ds_filter.
    destruct (config self) as [cfg|] eqn:Hc; simpl in H; [|discriminate]. simpl.
    destruct (filterR_total (PreferenceDatasetProcessor.filter_fn self) (rows dataset'))
      as [rows' ->]; [|by eexists].
    eapply Forall_impl; [exact Hfields|]. intros row (p & c & r & Hp & Hch & Hr).
    unfold PreferenceDatasetProcessor.filter_fn, self_config, row_getitem.
    rewrite Hc, Hp, Hch, Hr. simpl.
    destruct (max_prompt_token_lenth cfg); [by eexists|].
    destruct (max_token_length cfg); by eexists.
  - assert (Hfields : Forall (λ row : Row, ∃ p m, row !! "prompt" = Some (Tokens p)
                                ∧ row !! "messages" = Some (Tokens m)) (rows dataset')).
    { apply (proj2 (tokenize_is_pointwise self dataset dataset')) in H as H2.
      induction H2 as [|row row' rs rs' Hrow _ IH]; constructor; [|done].
      by apply (sft_tokenize_fn_Ok_fields self row). }
    split; [done|].
    unfold SFTDatasetProcessor.tokenize, self_config in H.
    unfold SFTDatasetProcessor.filter, self_config, ds_filter.
    destruct (config self) as [cfg|] eqn:Hc; simpl in H; [|discriminate]. simpl.
    destruct (filterR_total (SFTDatasetProcessor.filter_fn self) (rows dataset'))
      as [rows' ->]; [|by eexists].
    eapply Forall_impl; [exact Hfields|]. intros row (p & m & Hp & Hm).
    unfold SFTDatasetProcessor.filter_fn, self_config, row_getitem.
    rewrite Hc, Hp, Hm. simpl.
    destruct (max_prompt_token_lenth cfg); [by eexists|].
    destruct (max_token_length cfg); by eexists.
Qed.

Lemma filter_after_tokenize_succeeds_witness :
  let ds := {| column_names := {["chosen"; "rejected"]};
               rows := [raw_pref_row "hi" "hello" "no"; raw_pref_row "2+2" "4" "five"] |} in
  match PreferenceDatasetProcessor.tokenize (processor_with (Some 2) (Some 1)) ds with
  | Ok ds' => is_Ok (PreferenceDatasetProcessor.filter (processor_with (Some 2) (Some 1)) ds')
  | Raise _ => False
  end.
Proof.
  intros ds.
  destruct (PreferenceDatasetProcessor.tokenize (processor_with (Some 2) (Some 1)) ds)
    as [ds'|e] eqn:H.
  - exact (proj2 (proj1 (filter_after_tokenize_succeeds
                           (processor_with (Some 2) (Some 1)) ds ds') H)).
  - vm_compute in H. discriminate H.
Defined.

(** ** Length statistics in general *)

Lemma foldl_max_spec (x : Z) (xs : list Z) :
  (∀ y, y ∈ x :: xs → y ≤ foldl Z.max x xs) ∧ foldl Z.max x xs ∈ x :: xs.
Proof.
  revert x. induction xs as [|z zs IH]; intros x; cbn [foldl].
  - split; [|by left]. intros y ->%list_elem_of_singleton. lia.
  - destruct (IH (Z.max x z)) as [Hge Hin]. split.
    + pose proof (Hge (Z.max x z) ltac:(by left)) as Hm.
      intros y Hy. apply elem_of_cons in Hy as [Hy|Hy];
        [|apply elem_of_cons in Hy as [Hy|Hy]].
      * subst y. lia.
      * subst y. lia.
      * apply Hge. by right.
    + apply elem_of_cons in Hin as [Heq|Hin].
      * rewrite Heq. destruct (Z.max_spec x z) as [[_ ->]|[_ ->]];
          [right; by left|by left].
      * do 2 right. done.
Qed.

Lemma foldl_min_spec (x : Z) (xs : list Z) :
  (∀ y, y ∈ x :: xs → foldl Z.min x xs ≤ y) ∧ foldl Z.min x xs ∈ x :: xs.
Proof.
  revert x. induction xs as [|z zs IH]; intros x; cbn [foldl].
  - split; [|by left]. intros y ->%list_elem_of_singleton. lia.
  - destruct (IH (Z.min x z)) as [Hle Hin]. split.
    + pose proof (Hle (Z.min x z) ltac:(by left)) as Hm.
      intros y Hy. apply elem_of_cons in Hy as [Hy|Hy];
        [|apply elem_of_cons in Hy as [Hy|Hy]].
      * subst y. lia.
      * subst y. lia.
      * apply Hle. by right.
    + apply elem_of_cons in Hin as [Heq|Hin].
      * rewrite Heq. destruct (Z.min_spec x z) as [[_ ->]|[_ ->]];
          [by left|right; by left].
      * do 2 right. done.
Qed.


(** What one iteration of the loop computes when it does not raise. *)
Lemma field_stats_Ok_inv (dataset : Dataset) (key : string) (st : Stats.t) :
  DatasetProcessor.field_stats dataset key = Ok st →
  ∃ col x xs,
    ds_getitem dataset key = Ok col
    ∧ map py_len col = x :: xs
    ∧ Stats.max_token_length st = foldl Z.max x xs
    ∧ Stats.min_token_length st = foldl Z.min x xs
    ∧ Stats.mean_token_length st
      = Q2Qc (inject_Z (py_sum (x :: xs)) / inject_Z (Z.of_nat (length col))).
Proof.
  unfold DatasetProcessor.field_stats, DatasetProcessor.token_lengths. intros H.
  destruct (ds_getitem dataset key) as [col|e]; simpl in H; [|discriminate].
  destruct (map py_len col) as [|x xs] eqn:Hlens; simpl in H; [discriminate|].
  unfold py_truediv in H.
  destruct (decide (Z.of_nat (length col) = 0)) as [|_]; simpl in H; [discriminate|].
  inversion H; subst; clear H. exists col, x, xs. by rewrite Hlens.
Qed.

Lemma field_stats_total (dataset : Dataset) (key : string) :
  rows dataset ≠ [] →
  key ∈ column_names dataset →
  Forall (λ row : Row, is_Some (row !! key)) (rows dataset) →
  is_Ok (DatasetProcessor.field_stats dataset key).
Proof.
  intros Hne Hcol Hrows.
  assert (∃ col, mapR (λ r, row_getitem r key) (rows dataset) = Ok col
                 ∧ length col = length (rows dataset)) as (col & Hget & Hlen).
  { destruct (mapR_total (λ r, row_getitem r key) (rows dataset)) as [col Hget].
    - eapply Forall_impl; [exact Hrows|]. intros row [v Hv].
      unfold row_getitem. rewrite Hv. by eexists.
    - exists col. split; [done|]. by eapply mapR_length. }
  unfold DatasetProcessor.field_stats, DatasetProcessor.token_lengths, ds_getitem.
  rewrite decide_True by done. rewrite Hget. simpl.
  destruct col as [|v col]; [destruct (rows dataset); done|].
  cbn [map py_max py_min mbind result_bind]. unfold py_truediv.
  rewrite decide_False by (simpl; lia). by eexists.
Qed.

Lemma get_token_length_stats_Ok_inv (dataset : Dataset) (features : list string)
    (acc stats : gmap string Stats.t) :
  foldR (λ stats key, st ← DatasetProcessor.field_stats dataset key;
                      Ok (<[key := st]> stats)) acc features = Ok stats →
  (∀ key, key ∈ features →
     ∃ st, DatasetProcessor.field_stats dataset key = Ok st ∧ stats !! key = Some st)
  ∧ (∀ key, key ∉ features → stats !! key = acc !! key).
Proof.
  revert acc. induction features as [|k ks IH]; intros acc H; cbn [foldR] in H.
  - inversion H; subst. split; [|done]. intros key Hin. by apply elem_of_nil in Hin.
  - destruct (DatasetProcessor.field_stats dataset k) as [s|e] eqn:Hk;
      simpl in H; [|discriminate].
    destruct (IH _ H) as [Hin Hout]. split.
    + intros key [->|Hkey]%elem_of_cons; [|by apply Hin].
      destruct (decide (k ∈ ks)) as [Hks|Hks].
      * destruct (Hin k Hks) as (st & Hst & Hlook). by exists st.
      * exists s. split; [done|]. rewrite (Hout k Hks). by rewrite lookup_insert_eq.
    + intros key Hkey. apply not_elem_of_cons in Hkey as [Hne Hkey].
      rewrite (Hout key Hkey). by rewrite lookup_insert_ne.
Qed.


(** X10.  The statistics returned have one entry per distinct requested
    field and no other entry. *)
Theorem stats_entries_are_the_features
    (self : Processor) (features : list string) (dataset : Dataset)
    (stats : gmap string Stats.t) :
  DatasetProcessor.get_token_length_stats self features dataset = Ok stats →
  ∀ key, is_Some (stats !! key) ↔ key ∈ features.
Proof.
  intros H key. apply get_token_length_stats_Ok_inv in H as [Hin Hout]. split.
  - intros [st Hst]. destruct (decide (key ∈ features)) as [|Hnin]; [done|].
    rewrite (Hout key Hnin), lookup_empty in Hst. discriminate.
  - intros Hkey. destruct (Hin key Hkey) as (st & _ & Hst). by exists st.
Qed.

(** X11.  In returned statistics, a field's [min_token_length] and
    [max_token_length] bound the length of that field in every record, and
    each is the length of the field in some record. *)
Theorem stats_max_min_are_attained_bounds
    (self : Processor) (features : list string) (dataset : Dataset)
    (stats : gmap string Stats.t) (key : string) (st : Stats.t) :
  DatasetProcessor.get_token_length_stats self features dataset = Ok stats →
  stats !! key = Some st →
  ∃ col,
    ds_getitem dataset key = Ok col
    ∧ (∀ v, v ∈ col →
         Stats.min_token_length st ≤ py_len v ≤ Stats.max_token_length st)
    ∧ (∃ v, v ∈ col ∧ py_len v = Stats.max_token_length st)
    ∧ (∃ v, v ∈ col ∧ py_len v = Stats.min_token_length st).
Proof.
  intros H Hst.
  apply get_token_length_stats_Ok_inv in H as [Hin Hout].
  assert (Hkey : key ∈ features).
  { destruct (decide (key ∈ features)) as [|Hnin]; [done|].
    rewrite (Hout key Hnin), lookup_empty in Hst. discriminate. }
  destruct (Hin key Hkey) as (st' & Hfs & Hst'). assert (st' = st) as -> by congruence.
  apply field_stats_Ok_inv in Hfs as (col & x & xs & Hcol & Hlens & Hmax & Hmin & _).
  destruct (foldl_max_spec x xs) as [Hge Hmaxin].
  destruct (foldl_min_spec x xs) as [Hle Hminin].
  rewrite Hmax, Hmin, <- Hlens in *. exists col. split; [done|].
  change (map py_len col) with (py_len <$> col) in *. repeat split.
  - apply Hle. by apply list_elem_of_fmap_2.
  - apply Hge. by apply list_elem_of_fmap_2.
  - apply list_elem_of_fmap_1 in Hmaxin as (v & Hv & Hvin). by exists v.
  - apply list_elem_of_fmap_1 in Hminin as (v & Hv & Hvin). by exists v.
Qed.

Lemma stats_entries_are_the_features_witness :
  let ds := {| column_names := {["prompt"; "chosen"; "rejected"]};
               rows := [pref_row [1; 2] [1; 2; 3] [4];
                        pref_row [5] [7; 8; 9; 10; 11] []] |} in
  match DatasetProcessor.get_token_length_stats (processor_with None None)
          ["chosen"; "prompt"; "chosen"] ds with
  | Ok stats => is_Some (stats !! "chosen") ∧ ¬ is_Some (stats !! "rejected")
  | Raise _ => False
  end.
Proof.
  intros ds.
  destruct (DatasetProcessor.get_token_length_stats (processor_with None None)
              ["chosen"; "prompt"; "chosen"] ds) as [stats|e] eqn:H.
  - pose proof (stats_entries_are_the_features _ _ _ _ H) as Hkeys. split.
    + apply Hkeys. by left.
    + intros Hr%Hkeys.
      rewrite !elem_of_cons, elem_of_nil in Hr.
      destruct Hr as [Hr|[Hr|[Hr|[]]]]; discriminate Hr.
  - vm_compute in H. discriminate H.
Defined.

Lemma stats_max_min_are_attained_bounds_witness :
  let ds := {| column_names := {["prompt"; "chosen"; "rejected"]};
               rows := [pref_row [1; 2] [1; 2; 3] [4];
                        pref_row [5] [7; 8; 9; 10; 11] []] |} in
  match DatasetProcessor.get_token_length_stats (processor_with None None) ["chosen"] ds with
  | Ok stats =>
      match stats !! "chosen" with
      | Some st =>
          ∃ v, Stats.min_token_length st ≤ py_len v ∧ py_len v = Stats.max_token_length st
      | None => False
      end
  | Raise _ => False
  end.
Proof.
  intros ds.
  destruct (DatasetProcessor.get_token_length_stats (processor_with None None)
              ["chosen"] ds) as [stats|e] eqn:H.
  - destruct (stats !! "chosen") as [st|] eqn:Hst.
    + destruct (stats_max_min_are_attained_bounds _ _ _ _ _ _ H Hst)
        as (col & _ & Hbounds & (v & Hv & Hmax) & _).
      exists v. split; [|done]. by apply Hbounds.
    + vm_compute in H. inversion H; subst. vm_compute in Hst. discriminate Hst.
  - vm_compute in H. discriminate H.
Defined.






(** The values of a column come from the records. *)
Lemma ds_getitem_elem_of (dataset : Dataset) (key : string) (col : list Value) (v : Value) :
  ds_getitem dataset key = Ok col → v ∈ col →
  ∃ row : Row, row ∈ rows dataset ∧ row !! key = Some v.
Proof.
  unfold ds_getitem. intros H Hv.
  destruct (decide (key ∈ column_names dataset)); [|discriminate].
  apply mapR_Forall2 in H. apply list_elem_of_lookup in Hv as [i Hi].
  destruct (Forall2_lookup_r _ _ _ _ _ H Hi) as (row & Hrow & Hget).
  exists row. split; [by eapply list_elem_of_lookup_2|].
  unfold row_getitem in Hget. destruct (row !! key); [congruence|discriminate].
Qed.

Lemma stats_max_within (self : Processor) (features : list string) (dataset : Dataset)
    (stats : gmap string Stats.t) (key : string) (bound : Z) :
  DatasetProcessor.get_token_length_stats self features dataset = Ok stats →
  key ∈ features →
  (∀ (row : Row) v, row ∈ rows dataset → row !! key = Some v → py_len v ≤ bound) →
  ∃ st, stats !! key = Some st ∧ Stats.max_token_length st ≤ bound.
Proof.
  intros H Hkey Hrows.
  apply get_token_length_stats_Ok_inv in H as [Hin _].
  destruct (Hin key Hkey) as (st & Hfs & Hst). exists st. split; [done|].
  apply field_stats_Ok_inv in Hfs as (col & x & xs & Hcol & Hlens & Hmax & _).
  destruct (foldl_max_spec x xs) as [_ Hmaxin].
  rewrite Hmax. rewrite <- Hlens in Hmaxin.
  change (map py_len col) with (py_len <$> col) in Hmaxin.
  apply list_elem_of_fmap_1 in Hmaxin as (v & -> & Hv).
  destruct (ds_getitem_elem_of dataset key col v Hcol Hv) as (row & Hrow & Hget).
  by eapply Hrows.
Qed.

(** X14.  Filter then statistics: after [filter] with
    [max_prompt_token_lenth = bound], the reported maximum prompt length
    is at most [bound], for either variant. *)
Theorem stats_after_prompt_filter_within_bound
    (self : Processor) (cfg : DatasetConfig) (bound : Z)
    (dataset dataset' : Dataset) (stats : gmap string Stats.t) :
  config self = Some cfg →
  max_prompt_token_lenth cfg = Some bound →
  (PreferenceDatasetProcessor.filter self dataset = Ok dataset' →
   PreferenceDatasetProcessor.get_token_length_stats self dataset' = Ok stats →
   ∃ st, stats !! "prompt" = Some st ∧ Stats.max_token_length st ≤ bound)
  ∧ (SFTDatasetProcessor.filter self dataset = Ok dataset' →
     SFTDatasetProcessor.get_token_length_stats self dataset' = Ok stats →
     ∃ st, stats !! "prompt" = Some st ∧ Stats.max_token_length st ≤ bound).
Proof.
  intros Hc Hb.
  unfold PreferenceDatasetProcessor.filter, SFTDatasetProcessor.filter.
  rewrite (self_config_Some self cfg Hc). simpl.
  split; intros Hf Hs; apply ds_filter_Ok_inv in Hf as (_ & _ & Hmem & _).
  - apply (stats_max_within self ["prompt"; "chosen"; "rejected"] dataset' stats
             "prompt" bound Hs); [by left|].
    intros row v Hin Hv. apply Hmem in Hin as [_ Hfn].
    rewrite (pref_filter_fn_prompt_set self cfg Hc row bound Hb) in Hfn.
    unfold row_getitem in Hfn. rewrite Hv in Hfn. simpl in Hfn.
    inversion Hfn as [Hle]. by apply Z.leb_le.
  - apply (stats_max_within self ["prompt"; "messages"] dataset' stats
             "prompt" bound Hs); [by left|].
    intros row v Hin Hv. apply Hmem in Hin as [_ Hfn].
    rewrite (sft_filter_fn_prompt_set self cfg Hc row bound Hb) in Hfn.
    unfold row_getitem in Hfn. rewrite Hv in Hfn. simpl in Hfn.
    inversion Hfn as [Hle]. by apply Z.leb_le.
Qed.

Lemma stats_after_prompt_filter_within_bound_witness :
  let self := processor_with None (Some 3) in
  let ds := {| column_names := {["prompt"; "messages"]};
               rows := [sft_row [1; 2] [1; 2; 3]; sft_row [1; 2; 3; 4] [1; 2; 3; 4; 5]] |} in
  match SFTDatasetProcessor.filter self ds with
  | Ok ds' =>
      match SFTDatasetProcessor.get_token_length_stats self ds' with
      | Ok stats => ∃ st, stats !! "prompt" = Some st ∧ Stats.max_token_length st ≤ 3
      | Raise _ => False
      end
  | Raise _ => False
  end.
Proof.
  intros self ds.
  destruct (SFTDatasetProcessor.filter self ds) as [ds'|e] eqn:Hf.
  - destruct (SFTDatasetProcessor.get_token_length_stats self ds') as [stats|e] eqn:Hs.
    + exact (proj2 (stats_after_prompt_filter_within_bound self
                      (config_with None (Some 3)) 3 ds ds' stats eq_refl eq_refl) Hf Hs).
    + vm_compute in Hf. inversion Hf; subst. vm_compute in Hs. discriminate Hs.
  - vm_compute in Hf. discriminate Hf.
Defined.

Lemma get_token_length_stats_total (self : Processor) (features : list string)
    (dataset : Dataset) :
  rows dataset ≠ [] →
  (∀ key, key ∈ features →
     key ∈ column_names dataset
     ∧ Forall (λ row : Row, is_Some (row !! key)) (rows dataset)) →
  is_Ok (DatasetProcessor.get_token_length_stats self features dataset).
Proof.
  intros Hne. unfold DatasetProcessor.get_token_length_stats.
  generalize (∅ : gmap string Stats.t).
  induction features as [|k ks IH]; intros acc Hcols; cbn [foldR]; [by eexists|].
  destruct (Hcols k ltac:(by left)) as [Hcol Hrows].
  destruct (field_stats_total dataset k Hne Hcol Hrows) as [st ->]. simpl.
  apply IH. intros key Hin. apply Hcols. by right.
Qed.

Lemma Forall2_codomain {A B} (P : A → B → Prop) (Q : B → Prop)
    (l : list A) (k : list B) :
  Forall2 P l k → (∀ x y, P x y → Q y) → Forall Q k.
Proof.
  intros H HPQ. induction H as [|x y l k Hxy _ IH]; constructor; [by eapply HPQ|done].
Qed.

(** X15.  Tokenize then statistics: on a non-empty dataset returned by
    [tokenize], the variant's [get_token_length_stats] returns statistics
    (it raises on nothing), with an entry for [prompt]. *)
Theorem stats_after_tokenize_succeed (self : Processor) (dataset dataset' : Dataset) :
  rows dataset ≠ [] →
  (PreferenceDatasetProcessor.tokenize self dataset = Ok dataset' →
   ∃ stats, PreferenceDatasetProcessor.get_token_length_stats self dataset' = Ok stats
            ∧ is_Some (stats !! "prompt"))
  ∧ (SFTDatasetProcessor.tokenize self dataset = Ok dataset' →
     ∃ stats, SFTDatasetProcessor.get_token_length_stats self dataset' = Ok stats
              ∧ is_Some (stats !! "prompt")).
Proof.
  intros Hne.
  assert (Hgen : ∀ (fn : Row → result Row) np lc (features : list string),
    ds_map fn np lc dataset = Ok dataset' →
    (∀ row row', fn row = Ok row' → ∀ key, key ∈ features → is_Some (row' !! key)) →
    "prompt" ∈ features →
    ∃ stats, DatasetProcessor.get_token_length_stats self features dataset' = Ok stats
             ∧ is_Some (stats !! "prompt")).
  { intros fn np lc features Hmap Hfields Hprompt.
    apply ds_map_Ok_inv in Hmap as [Hrows Hcols].
    assert (Hall : Forall (λ row' : Row, ∀ key, key ∈ features → is_Some (row' !! key))
                          (rows dataset')).
    { eapply Forall2_codomain; [exact Hrows|]. intros row row' Hrow. by apply (Hfields row). }
    assert (Hne' : rows dataset' ≠ []).
    { intros Hnil. rewrite Hnil in Hrows. inversion Hrows; subst. congruence. }
    destruct (get_token_length_stats_total self features dataset' Hne') as [stats Hstats].
    - intros key Hkey. split.
      + rewrite Hcols. apply elem_of_union_r, elem_of_union_list.
        destruct (rows dataset') as [|row' rs'] eqn:Hrs; [done|].
        exists (dom row'). split; [by left|].
        apply elem_of_dom. by apply (Forall_inv Hall).
      + eapply Forall_impl; [exact Hall|]. intros row' Hrow'. by apply Hrow'.
    - exists stats. split; [done|].
      apply get_token_length_stats_Ok_inv in Hstats as [Hin _].
      destruct (Hin "prompt" Hprompt) as (st & _ & Hst). by exists st. }
  unfold PreferenceDatasetProcessor.tokenize, SFTDatasetProcessor.tokenize, self_config.
  split; intros H; (destruct (config self) as [cfg|]; simpl in H; [|discriminate]).
  - apply (Hgen _ _ _ ["prompt"; "chosen"; "rejected"] H); [|by left].
    intros row row' Hrow key Hkey.
    destruct (pref_tokenize_fn_Ok_fields self row row' Hrow) as (p & c & r & Hp & Hc & Hr).
    rewrite !elem_of_cons, elem_of_nil in Hkey.
    destruct Hkey as [->|[->|[->|[]]]]; by eexists.
  - apply (Hgen _ _ _ ["prompt"; "messages"] H); [|by left].
    intros row row' Hrow key Hkey.
    destruct (sft_tokenize_fn_Ok_fields self row row' Hrow) as (p & m & Hp & Hm).
    rewrite !elem_of_cons, elem_of_nil in Hkey.
    destruct Hkey as [->|[->|[]]]; by eexists.
Qed.

Lemma stats_after_tokenize_succeed_witness :
  let self := processor_with None None in
  let ds := {| column_names := {["messages"]};
               rows := [raw_sft_row "hi" "hello"; raw_sft_row "2+2" "4"] |} in
  match SFTDatasetProcessor.tokenize self ds with
  | Ok ds' => is_Ok (SFTDatasetProcessor.get_token_length_stats self ds')
  | Raise _ => False
  end.
Proof.
  intros self ds.
  destruct (SFTDatasetProcessor.tokenize self ds) as [ds'|e] eqn:H.
  - destruct (proj2 (stats_after_tokenize_succeed self ds ds' ltac:(discriminate)) H)
      as (stats & Hstats & _).
    by exists stats.
  - vm_compute in H. discriminate H.
Defined.

(** ** visualize_token *)

Lemma COLORS_lookup_mod (i : nat) : is_Some (COLORS !! (i mod length COLORS)%nat).
Proof. apply lookup_lt_is_Some_2. apply Nat.mod_upper_bound. discriminate. Qed.

Lemma COLORS_NoDup : NoDup COLORS.
Proof. apply (bool_decide_unpack _). vm_compute. exact I. Qed.

Lemma visualize_loop_Printed_inv (decode : Z → result string) (tokens : list Z)
    (i : nat) (rich_text out : list Segment) :
  visualize_loop decode i tokens rich_text = Printed out →
  ∃ segs,
    out = (rich_text ++ segs)%list
    ∧ Forall2 (λ token seg, decode token = Ok (text seg)) tokens segs
    ∧ ∀ k seg, segs !! k = Some seg →
               COLORS !! ((i + k) mod length COLORS)%nat = Some (style seg).
Proof.
  revert i rich_text. induction tokens as [|token tokens IH]; intros i rich_text H;
    cbn [visualize_loop] in H.
  - inversion H; subst. exists []. rewrite app_nil_r. repeat split; [constructor|].
    intros k seg Hk. by rewrite lookup_nil in Hk.
  - destruct (COLORS !! (i mod length COLORS)%nat) as [color|] eqn:Hcolor; [|discriminate].
    destruct (decode token) as [decoded_token|e] eqn:Hdec; [|discriminate].
    apply IH in H as (segs & -> & Hsegs & Hstyles).
    exists ({| text := decoded_token; style := color |} :: segs).
    rewrite <- app_assoc. repeat split; [by constructor|].
    intros [|k] seg Hk; simpl in Hk.
    + inversion Hk; subst. by rewrite Nat.add_0_r.
    + rewrite <- Nat.add_succ_comm. by apply Hstyles.
Qed.

Lemma visualize_loop_total (decode : Z → result string) (tokens : list Z)
    (i : nat) (rich_text : list Segment) :
  Forall (λ token, is_Ok (decode token)) tokens →
  ∃ out, visualize_loop decode i tokens rich_text = Printed out.
Proof.
  intros H. revert i rich_text.
  induction H as [|token tokens [s Hs] _ IH]; intros i rich_text; cbn [visualize_loop].
  - by eexists.
  - destruct (COLORS_lookup_mod i) as [color ->]. rewrite Hs. apply IH.
Qed.

Lemma visualize_loop_no_index_error (decode : Z → result string) (tokens : list Z)
    (i : nat) (rich_text : list Segment) :
  visualize_loop decode i tokens rich_text ≠ RaisedIndexError.
Proof.
  revert i rich_text. induction tokens as [|token tokens IH]; intros i rich_text;
    cbn [visualize_loop]; [discriminate|].
  destruct (COLORS_lookup_mod i) as [color ->].
  destruct (decode token); [apply IH|discriminate].
Qed.

Lemma visualize_loop_first_error (decode : Z → result string) (pre post : list Z)
    (token : Z) (e : Exception) (i : nat) (rich_text : list Segment) :
  Forall (λ t, is_Ok (decode t)) pre → decode token = Raise e →
  visualize_loop decode i (pre ++ token :: post)%list rich_text = Raised e.
Proof.
  intros Hpre Htok. revert i rich_text.
  induction Hpre as [|t ts [s Hs] _ IH]; intros i rich_text;
    rewrite <- ?app_comm_cons; cbn [visualize_loop app];
    destruct (COLORS_lookup_mod i) as [color ->].
  - by rewrite Htok.
  - rewrite Hs. apply IH.
Qed.

(** X16.  When [decode] succeeds on every token, [visualize_token] prints
    one segment per token, in order: segment [k] carries the decoded text
    of token [k] and the style [COLORS[k % 5]]. *)
Theorem visualize_token_one_segment_per_token
    (tokens : list Z) (decode : Z → result string) :
  Forall (λ token, is_Ok (decode token)) tokens →
  ∃ rich_text,
    visualize_token tokens decode = Printed rich_text
    ∧ length rich_text = length tokens
    ∧ ∀ k token, tokens !! k = Some token →
        ∃ seg, rich_text !! k = Some seg
               ∧ decode token = Ok (text seg)
               ∧ COLORS !! (k mod 5)%nat = Some (style seg).
Proof.
  intros Hdec. unfold visualize_token.
  destruct (visualize_loop_total decode tokens 0 [] Hdec) as [out Hout].
  exists out. split; [done|].
  apply visualize_loop_Printed_inv in Hout as (segs & -> & Hsegs & Hstyles).
  rewrite app_nil_l. split; [symmetry; by eapply Forall2_length|].
  intros k token Hk.
  destruct (Forall2_lookup_l _ _ _ _ _ Hsegs Hk) as (seg & Hseg & Htext).
  exists seg. repeat split; [done..|]. by apply (Hstyles k seg).
Qed.

(** X17.  In what [visualize_token] prints, two segments have the same
    style exactly when their positions are congruent modulo 5; in
    particular neighbouring segments always differ in style. *)
Theorem visualize_token_styles_cycle
    (tokens : list Z) (decode : Z → result string) (rich_text : list Segment) :
  visualize_token tokens decode = Printed rich_text →
  (∀ j k seg_j seg_k,
     rich_text !! j = Some seg_j → rich_text !! k = Some seg_k →
     (style seg_j = style seg_k ↔ (j mod 5 = k mod 5)%nat))
  ∧ (∀ k seg seg',
       rich_text !! k = Some seg → rich_text !! S k = Some seg' →
       style seg ≠ style seg').
Proof.
  unfold visualize_token. intros H.
  apply visualize_loop_Printed_inv in H as (segs & -> & _ & Hstyles).
  rewrite app_nil_l.
  assert (Hiff : ∀ j k seg_j seg_k,
     segs !! j = Some seg_j → segs !! k = Some seg_k →
     (style seg_j = style seg_k ↔ (j mod 5 = k mod 5)%nat)).
  { intros j k seg_j seg_k Hj Hk.
    pose proof (Hstyles j seg_j Hj) as Hcj. pose proof (Hstyles k seg_k Hk) as Hck.
    change (length COLORS) with 5%nat in *. rewrite Nat.add_0_l in Hcj, Hck. split.
    - intros Heq. rewrite Heq in Hcj.
      by apply (NoDup_lookup COLORS _ _ (style seg_k) COLORS_NoDup).
    - intros Heq. rewrite Heq in Hcj. congruence. }
  split; [done|].
  intros k seg seg' Hk Hk' Heq. apply (Hiff k (S k) seg seg' Hk Hk') in Heq.
  pose proof (Nat.mod_upper_bound k 5 ltac:(discriminate)) as Hlt.
  destruct (decide (k mod 5 = 4)%nat) as [H4|H4].
  - assert (S k mod 5 = 0)%nat as H0.
    { rewrite <- Nat.add_1_r, Nat.Div0.add_mod, H4. reflexivity. }
    lia.
  - assert (S k mod 5 = S (k mod 5))%nat as HS.
    { rewrite <- Nat.add_1_r, Nat.Div0.add_mod. change (1 mod 5)%nat with 1%nat.
      rewrite Nat.add_1_r. apply Nat.mod_small. lia. }
    lia.
Qed.

(** X18.  [visualize_token] never raises [IndexError] from [COLORS[...]],
    whatever the tokens; and if [decode] raises on some token after
    succeeding on all tokens before it, that exception is what the call
    ends with, and nothing is printed. *)
Theorem visualize_token_failures (tokens : list Z) (decode : Z → result string) :
  visualize_token tokens decode ≠ RaisedIndexError
  ∧ ∀ pre post token e,
      tokens = (pre ++ token :: post)%list →
      Forall (λ t, is_Ok (decode t)) pre →
      decode token = Raise e →
      visualize_token tokens decode = Raised e.
Proof.
  split; [apply visualize_loop_no_index_error|].
  intros pre post token e -> Hpre Htok. by apply visualize_loop_first_error.
Qed.

Lemma visualize_token_one_segment_per_token_witness :
  ∃ rich_text,
    visualize_token [10; 11; 12; 13; 14; 15] toy_decode = Printed rich_text
    ∧ length rich_text = 6%nat.
Proof.
  destruct (visualize_token_one_segment_per_token [10; 11; 12; 13; 14; 15] toy_decode)
    as (rich_text & H & Hlen & _).
  - repeat constructor; eexists; reflexivity.
  - by exists rich_text.
Defined.

Lemma visualize_token_styles_cycle_witness :
  match visualize_token [10; 11; 12; 13; 14; 15] toy_decode with
  | Printed rich_text =>
      ∀ seg seg', rich_text !! 0%nat = Some seg → rich_text !! 5%nat = Some seg' →
                  style seg = style seg'
  | _ => False
  end.
Proof.
  destruct (visualize_token [10; 11; 12; 13; 14; 15] toy_decode) as [rich_text|e|] eqn:H.
  - intros seg seg' H0 H5.
    by apply (proj1 (visualize_token_styles_cycle _ _ _ H) 0%nat 5%nat seg seg' H0 H5).
  - vm_compute in H. discriminate H.
  - vm_compute in H. discriminate H.
Defined.

Lemma visualize_token_failures_witness :
  visualize_token [10; 11; -1; 13] toy_decode = Raised ValueError.
Proof.
  apply (proj2 (visualize_token_failures [10; 11; -1; 13] toy_decode)
           [10; 11] [13] (-1) ValueError eq_refl).
  - repeat constructor; eexists; reflexivity.
  - reflexivity.
Defined.

(** ** get_token_length_visualization *)

Lemma plot_histograms_calls (dataset : Dataset) (bins : Z) (features : list string)
    (calls : list PltCall) :
  ∃ hists, snd (DatasetProcessor.plot_histograms dataset bins features calls)
           = (calls ++ hists)%list
           ∧ Forall is_hist hists.
Proof.
  revert calls. induction features as [|feature features IH]; intros calls;
    cbn [DatasetProcessor.plot_histograms].
  - exists []. by rewrite app_nil_r.
  - destruct (DatasetProcessor.token_lengths dataset feature) as [lengths|e].
    + destruct (IH (calls ++ [plt_hist lengths bins feature])%list) as (hists & -> & Hh).
      exists (plt_hist lengths bins feature :: hists). rewrite <- app_assoc.
      split; [done|]. constructor; [by repeat eexists|done].
    + exists []. by rewrite app_nil_r.
Qed.

Lemma plot_histograms_fails (dataset : Dataset) (bins : Z) (features : list string)
    (calls : list PltCall) (key : string) :
  key ∈ features → ¬ is_Ok (DatasetProcessor.token_lengths dataset key) →
  ∃ e, fst (DatasetProcessor.plot_histograms dataset bins features calls) = Raise e.
Proof.
  revert calls. induction features as [|feature features IH]; intros calls Hin Hkey;
    cbn [DatasetProcessor.plot_histograms].
  - by apply elem_of_nil in Hin.
  - destruct (DatasetProcessor.token_lengths dataset feature) as [lengths|e] eqn:Hf.
    + apply elem_of_cons in Hin as [->|Hin]; [|by apply IH].
      exfalso. apply Hkey. by exists lengths.
    + by exists e.
Qed.



(** X19.  If some requested field is not a column of the dataset,
    [get_token_length_visualization] raises after opening the figure: the
    only calls it has made after [plt.figure] are histograms, so nothing
    is saved, and no log record is written. *)
Theorem visualization_missing_column_saves_nothing
    (self : Processor) (features : list string) (dataset : Dataset)
    (save_path : string) (bins : Z) (w : World) (key : string) :
  key ∈ features → key ∉ column_names dataset →
  ∃ e hists,
    DatasetProcessor.get_token_length_visualization self features dataset save_path bins w
    = (Raise e,
       {| plt_calls := (plt_calls w ++ plt_figure 10 5 :: hists)%list;
          log_records := log_records w |})
    ∧ Forall is_hist hists.
Proof.
  intros Hin Hcol.
  assert (Hkey : ¬ is_Ok (DatasetProcessor.token_lengths dataset key)).
  { unfold DatasetProcessor.token_lengths, ds_getitem.
    rewrite decide_False by done. intros [? ?]; discriminate. }
  unfold DatasetProcessor.get_token_length_visualization.
  destruct (plot_histograms_fails dataset bins features
              (plt_calls w ++ [plt_figure 10 5])%list key Hin Hkey) as [e He].
  destruct (plot_histograms_calls dataset bins features
              (plt_calls w ++ [plt_figure 10 5])%list) as (hists & Hcalls & Hh).
  destruct (DatasetProcessor.plot_histograms dataset bins features
              (plt_calls w ++ [plt_figure 10 5])%list) as [r calls].
  simpl in He, Hcalls. subst r calls. exists e, hists.
  by rewrite <- app_assoc.
Qed.

Lemma visualization_missing_column_saves_nothing_witness :
  ∃ e hists,
    DatasetProcessor.get_token_length_visualization (processor_with None None)
      ["chosen"; "prompt"]
      {| column_names := {["chosen"; "rejected"]};
         rows := [raw_pref_row "hi" "hello" "no"] |}
      "lengths.png" 30 fresh_world
    = (Raise e, {| plt_calls := plt_figure 10 5 :: hists; log_records := [] |})
    ∧ Forall is_hist hists.
Proof.
  apply (visualization_missing_column_saves_nothing (processor_with None None)
           ["chosen"; "prompt"]
           {| column_names := {["chosen"; "rejected"]};
              rows := [raw_pref_row "hi" "hello" "no"] |}
           "lengths.png" 30 fresh_world "prompt").
  - right. by left.
  - cbn [column_names]. intros H.
    apply elem_of_union in H as [H|H]; apply elem_of_singleton in H; discriminate H.
Defined.



(** X21.  The variants' [get_token_length_visualization] offer no choice
    of destination or binning: whenever they return normally, the plot has
    been saved to [tmp.png] with 30 bins per histogram, over the variant's
    fixed fields in their fixed order. *)
Theorem variant_visualization_saves_to_tmp_png
    (self : Processor) (dataset : Dataset) (w w' : World) :
  (PreferenceDatasetProcessor.get_token_length_visualization self dataset w = (Ok tt, w') →
   ∃ lp lc lr,
     plt_calls w'
     = (plt_calls w ++ [plt_figure 10 5; plt_hist lp 30 "prompt";
                        plt_hist lc 30 "chosen"; plt_hist lr 30 "rejected"]
          ++ finish_plot "tmp.png")%list)
  ∧ (SFTDatasetProcessor.get_token_length_visualization self dataset w = (Ok tt, w') →
     ∃ lp lm,
       plt_calls w'
       = (plt_calls w ++ [plt_figure 10 5; plt_hist lp 30 "prompt";
                          plt_hist lm 30 "messages"]
            ++ finish_plot "tmp.png")%list).
Proof.
  unfold PreferenceDatasetProcessor.get_token_length_visualization,
    SFTDatasetProcessor.get_token_length_visualization,
    DatasetProcessor.get_token_length_visualization,
    DatasetProcessor.default_save_path, DatasetProcessor.default_bins.
  cbn [DatasetProcessor.plot_histograms].
  split; intros H.
  - destruct (DatasetProcessor.token_lengths dataset "prompt") as [lp|];
      [|inversion H].
    destruct (DatasetProcessor.token_lengths dataset "chosen") as [lc|];
      [|inversion H].
    destruct (DatasetProcessor.token_lengths dataset "rejected") as [lr|];
      [|inversion H].
    inversion H; subst; clear H. exists lp, lc, lr. cbn [plt_calls].
    unfold finish_plot. by rewrite <- !app_assoc.
  - destruct (DatasetProcessor.token_lengths dataset "prompt") as [lp|];
      [|inversion H].
    destruct (DatasetProcessor.token_lengths dataset "messages") as [lm|];
      [|inversion H].
    inversion H; subst; clear H. exists lp, lm. cbn [plt_calls].
    unfold finish_plot. by rewrite <- !app_assoc.
Qed.

Lemma variant_visualization_saves_to_tmp_png_witness :
  let self := processor_with None None in
  let ds := {| column_names := {["prompt"; "messages"]};
               rows := [sft_row [1; 2] [1; 2; 3]] |} in
  ∃ lp lm,
    plt_calls (snd (SFTDatasetProcessor.get_token_length_visualization self ds fresh_world))
    = ([plt_figure 10 5; plt_hist lp 30 "prompt"; plt_hist lm 30 "messages"]
         ++ finish_plot "tmp.png")%list.
Proof.
  intros self ds.
  destruct (SFTDatasetProcessor.get_token_length_visualization self ds fresh_world)
    as [r w'] eqn:H.
  assert (r = Ok tt) as -> by (vm_compute in H; by inversion H).
  exact (proj2 (variant_visualization_saves_to_tmp_png self ds fresh_world w') H).
Defined.
